(** * ict-temperature: DS18B20 monitor (main.py)

  A shallow embedding of [main.py]: the [Thermometer] class that parses the
  content of the 1-Wire device file, the [Notifier] class whose [pushData]
  is an [async def], the platform test [is_linux_os], and the [__main__]
  block (platform gate, message of the day, diagnostic read, monitoring
  loop).

  Conventions of the embedding.
  - A Python [str] is a [string]; a character is a code point below 256.
  - A Python [float] is an IEEE 754 binary64 value, a [spec_float] of the
    standard library's [SpecFloat] with precision 53 and [emax = 1024].
  - An exception is a value of [exn]; a computation that can raise returns
    a [result]; output, sleeps and file reads are recorded in a trace of
    [event]s, in program order.
  - The unbounded [while True] loop is run with a number of iterations to
    observe ([fuel]); a run that is still looping reports [Running]. *)

From Stdlib Require Import ZArith List String Ascii Bool Lia.
From Stdlib Require Import Floats.SpecFloat.
Import ListNotations.

Local Open Scope string_scope.
Local Open Scope Z_scope.

(** ** Strings *)

Module PyStr.

(** The double-quote character and the control characters that the
    source writes as escapes. *)
Definition dq : ascii := ascii_of_nat 34.
Definition nl : ascii := ascii_of_nat 10.
Definition cr : ascii := ascii_of_nat 13.
Definition tab : ascii := ascii_of_nat 9.
Definition sp : ascii := ascii_of_nat 32.

Definition str1 (c : ascii) : string := String c EmptyString.

(** [s.split(sep)] for a separator of one character: every occurrence
    splits, empty fields are kept, and the result is never empty. *)
Fixpoint split (sep : ascii) (s : string) : list string :=
  match s with
  | EmptyString => [EmptyString]
  | String c r =>
      if Ascii.eqb c sep then EmptyString :: split sep r
      else match split sep r with
           | h :: t => String c h :: t
           | [] => [str1 c]
           end
  end.

(** [s[n:]] *)
Fixpoint slice_from (n : nat) (s : string) : string :=
  match n, s with
  | O, _ => s
  | S _, EmptyString => EmptyString
  | S k, String _ r => slice_from k r
  end.

Fixpoint mem (c : ascii) (s : string) : bool :=
  match s with
  | EmptyString => false
  | String d r => Ascii.eqb c d || mem c r
  end.

(** [sub in s] for strings. *)
Fixpoint contains (sub s : string) : bool :=
  String.prefix sub s
  || match s with
     | EmptyString => false
     | String _ r => contains sub r
     end.

Definition hex_digit (n : nat) : ascii :=
  if Nat.ltb n 10 then ascii_of_nat (48 + n) else ascii_of_nat (87 + n).

(** Characters that [repr] prints as they are (code points below 256). *)
Definition printable (c : ascii) : bool :=
  let n := nat_of_ascii c in
  (Nat.leb 32 n && Nat.ltb n 127) || (Nat.ltb 160 n && negb (Nat.eqb n 173)).

Definition repr_char (quote c : ascii) : string :=
  let n := nat_of_ascii c in
  if Ascii.eqb c quote || Ascii.eqb c "\"%char then String "\"%char (str1 c)
  else if Ascii.eqb c tab then "\t"
  else if Ascii.eqb c nl then "\n"
  else if Ascii.eqb c cr then "\r"
  else if printable c then str1 c
  else String "\"%char (String "x"%char
         (String (hex_digit (Nat.div n 16)) (str1 (hex_digit (Nat.modulo n 16))))).

Fixpoint repr_body (quote : ascii) (s : string) : string :=
  match s with
  | EmptyString => EmptyString
  | String c r => repr_char quote c ++ repr_body quote r
  end.

(** [repr(s)]: single quotes, unless the string has a single quote and no
    double quote. *)
Definition repr (s : string) : string :=
  let quote := if mem "'"%char s && negb (mem dq s) then dq else "'"%char in
  String quote (repr_body quote s ++ str1 quote).

End PyStr.

(** ** Floats *)

Module PyFloat.

Definition float := spec_float.

Definition prec : Z := 53.
Definition emax : Z := 1024.

(** [x / y] on floats with a non-zero divisor. *)
Definition div (x y : float) : float := SFdiv prec emax x y.

(** The float of an integer, as in the implicit conversion of [1000]. *)
Definition of_Z (n : Z) : float := binary_normalize prec emax n 0 false.

(** The double nearest to [m * 10 ^ e] (ties to even), with the sign
    [neg]; overflow gives an infinity. *)
Definition of_decimal (neg : bool) (m e : Z) : float :=
  match m with
  | Zpos p =>
      if 0 <=? e then binary_round prec emax neg (Z.to_pos (m * 10 ^ e)) 0
      else SFdiv prec emax (S754_finite neg p 0)
                           (S754_finite false (Z.to_pos (10 ^ (- e))) 0)
  | _ => S754_zero neg
  end.

Definition is_digit (c : ascii) : bool :=
  let n := nat_of_ascii c in Nat.leb 48 n && Nat.leb n 57.

Definition digit_val (c : ascii) : Z := Z.of_nat (nat_of_ascii c) - 48.

(** White space stripped by [float()]: the ASCII white space, and the two
    white-space code points between 128 and 255. *)
Definition is_space (c : ascii) : bool :=
  let n := nat_of_ascii c in
  (Nat.leb 9 n && Nat.leb n 13) || Nat.eqb n 32 || Nat.eqb n 133 || Nat.eqb n 160.

Definition lower (c : ascii) : ascii :=
  let n := nat_of_ascii c in
  if Nat.leb 65 n && Nat.leb n 90 then ascii_of_nat (n + 32) else c.

Fixpoint lower_str (s : string) : string :=
  match s with
  | EmptyString => EmptyString
  | String c r => String (lower c) (lower_str r)
  end.

(** Underscores are accepted between two digits only, and removed. *)
Fixpoint strip_underscores (prev : ascii) (s : string) : option string :=
  match s with
  | EmptyString => if Ascii.eqb prev "_" then None else Some EmptyString
  | String c r =>
      if Ascii.eqb c "_" then
        if is_digit prev then strip_underscores c r else None
      else if Ascii.eqb prev "_" && negb (is_digit c) then None
      else option_map (String c) (strip_underscores c r)
  end.

Fixpoint lstrip (s : string) : string :=
  match s with
  | String c r => if is_space c then lstrip r else s
  | EmptyString => s
  end.

Fixpoint rstrip (s : string) : string :=
  match s with
  | EmptyString => EmptyString
  | String c r =>
      match rstrip r with
      | EmptyString => if is_space c then EmptyString else PyStr.str1 c
      | r' => String c r'
      end
  end.

(** The longest prefix of digits, as an integer with its length, and the
    rest of the string. *)
Fixpoint digits_acc (acc : Z) (len : nat) (s : string) : Z * nat * string :=
  match s with
  | String c r =>
      if is_digit c then digits_acc (10 * acc + digit_val c) (S len) r
      else (acc, len, s)
  | EmptyString => (acc, len, s)
  end.

Definition digits (s : string) : Z * nat * string := digits_acc 0 O s.

Definition sign (s : string) : bool * string :=
  match s with
  | String "-" r => (true, r)
  | String "+" r => (false, r)
  | _ => (false, s)
  end.

(** [digits [. digits] [(e|E) [sign] digits]] with a digit in the
    mantissa, to the end of the string: the mantissa as an integer and
    the decimal exponent. *)
Definition number (s : string) : option (Z * Z) :=
  let '(m1, l1, r1) := digits s in
  let '(m, l2, r2) :=
    match r1 with
    | String "." r => digits_acc m1 O r
    | _ => (m1, O, r1)
    end in
  if Nat.eqb (l1 + l2) 0 then None
  else match r2 with
       | EmptyString => Some (m, - Z.of_nat l2)
       | String c r3 =>
           if Ascii.eqb (lower c) "e" then
             let '(eneg, r4) := sign r3 in
             let '(ex, l3, r5) := digits r4 in
             match l3, r5 with
             | S _, EmptyString =>
                 Some (m, (if eneg then - ex else ex) - Z.of_nat l2)
             | _, _ => None
             end
           else None
       end.

Definition inf_or_nan (s : string) : option float :=
  let '(neg, r) := sign s in
  let w := lower_str r in
  if String.eqb w "inf" || String.eqb w "infinity" then Some (S754_infinity neg)
  else if String.eqb w "nan" then Some S754_nan
  else None.

(** [float(s)] for a string: [None] when it raises [ValueError]. *)
Definition parse (s : string) : option float :=
  match strip_underscores zero s with
  | None => None
  | Some s1 =>
      let s2 := rstrip (lstrip s1) in
      let '(neg, body) := sign s2 in
      match number body with
      | Some (m, e) => Some (of_decimal neg m e)
      | None => inf_or_nan s2
      end
  end.

End PyFloat.


(** ** Exceptions, results and traces *)

(** The exceptions the program can meet. All are subclasses of Python's
    [Exception]; each carries its message, which is what [str(E)] gives. *)
Inductive exn : Type :=
| Exception (msg : string)
| IndexError (msg : string)
| ValueError (msg : string)
| OSError (msg : string).

Definition exn_str (E : exn) : string :=
  match E with
  | Exception msg | IndexError msg | ValueError msg | OSError msg => msg
  end.

Inductive result (A : Type) : Type :=
| Ok (a : A)
| Raised (E : exn).
Arguments Ok {A} a.
Arguments Raised {A} E.

(** What a run does to the outside, in program order. *)
Inductive event : Type :=
| Print (text : string)                       (* print(text) *)
| Sleep (seconds : Z)                         (* time.sleep(seconds) *)
| ReadFile (path : string)                    (* open(path).read() *)
| CoroutineCreated (queue_name data : string) (* a call of the async pushData *)
| SendMessages (conn queue_name body : string). (* sender.send_messages(message) *)

Definition trace := list event.

(** A computation: the events it produced and its value, or the exception
    that ended it. *)
Definition M (A : Type) : Type := (trace * result A)%type.

Definition ret {A} (a : A) : M A := ([], Ok a).

Definition raise {A} (E : exn) : M A := ([], Raised E).

Definition bind {A B} (m : M A) (k : A -> M B) : M B :=
  match m with
  | (tr, Ok a) => let '(tr', r) := k a in ((tr ++ tr')%list, r)
  | (tr, Raised E) => (tr, Raised E)
  end.

(** [try: m except Exception as E: h E] *)
Definition try_except {A} (m : M A) (h : exn -> M A) : M A :=
  match m with
  | (tr, Raised E) => let '(tr', r) := h E in ((tr ++ tr')%list, r)
  | (tr, Ok a) => (tr, Ok a)
  end.

Declare Scope py_scope.
Delimit Scope py_scope with py.
Notation "x <- m ;; k" := (bind m (fun x => k))
  (at level 61, m at next level, right associativity) : py_scope.
Notation "m ;;; k" := (bind m (fun _ => k))
  (at level 61, right associativity) : py_scope.
Local Open Scope py_scope.

Definition print (text : string) : M unit := ([Print text], Ok tt).

Definition sleep (seconds : Z) : M unit := ([Sleep seconds], Ok tt).

(** [l[i]] for a list and [i >= 0]. *)
Definition index {A} (l : list A) (i : nat) : M A :=
  match nth_error l i with
  | Some x => ret x
  | None => raise (IndexError "list index out of range")
  end.

(** [float(s)] for a string. *)
Definition float_of_str (s : string) : M PyFloat.float :=
  match PyFloat.parse s with
  | Some x => ret x
  | None => raise (ValueError ("could not convert string to float: " ++ PyStr.repr s))
  end.

(** ** Thermometer *)

(** The file system at one moment: the text that
    [open(path, encoding='utf8').read()] returns, or the exception it
    raises. *)
Definition filesystem := string -> result string.

Record Thermometer : Type := { ds18b20_roots : list string }.

(** [Thermometer(device_root)]; [glob] is [glob.glob] at that moment. *)
Definition Thermometer_init (glob : string -> list string) (device_root : string)
  : Thermometer :=
  {| ds18b20_roots := glob device_root |}.

Definition read_file (fs : filesystem) (filePath : string) : M string :=
  ([ReadFile filePath], fs filePath).

Definition check_thermometer_connection (self : Thermometer) : bool :=
  if Nat.ltb 0 (List.length (ds18b20_roots self)) then true else false.

Definition get_temperature (self : Thermometer) (fs : filesystem) : M PyFloat.float :=
  if check_thermometer_connection self then
    root <- index (ds18b20_roots self) 0 ;;
    content <- read_file fs root ;;
    second_line <- index (PyStr.split PyStr.nl content) 1 ;;
    temperature_data <- index (PyStr.split PyStr.sp second_line) 9 ;;
    x <- float_of_str (PyStr.slice_from 2 temperature_data) ;;
    ret (PyFloat.div x (PyFloat.of_Z 1000))
  else
    raise (Exception
      "unable to get temperature. Please check device connection, or configured ds18b20_roots!").

(** ** Notifier *)

Record Notifier : Type := { connection_str : string }.

Definition Notifier_init (connection_str : string) : Notifier :=
  {| connection_str := connection_str |}.

(** The messaging service, an external library: whether a sender for
    [queue_name] can be opened over the connection string [conn] (client
    from the connection string, queue sender, entering the sender), and
    what sending [body] through it results in. *)
Record servicebus : Type := {
  open_sender : string -> string -> result unit;
  send_messages : string -> string -> string -> result unit
}.

(** A coroutine object: the body of an [async def], not yet run. Running
    it needs an event loop ([co_run]). *)
Record coroutine : Type := { co_run : servicebus -> M unit }.

(** The body of [pushData]: once the sender is open, the message
    [str(data)] is sent to the queue; the confirmation is printed after a
    successful send. *)
Definition pushData_body (self : Notifier) (queue_name data : string)
  (bus : servicebus) : M unit :=
  (([], open_sender bus (connection_str self) queue_name) : M unit) ;;;
  (([SendMessages (connection_str self) queue_name data],
    send_messages bus (connection_str self) queue_name data) : M unit) ;;;
  print "Message sent to Service Bus Queue !".

(** [pushData] is declared [async def]: a call records the arguments in a
    coroutine object and runs nothing of the body. *)
Definition pushData (self : Notifier) (queue_name data : string) : M coroutine :=
  ([CoroutineCreated queue_name data],
   Ok {| co_run := pushData_body self queue_name data |}).

(** ** Platform test *)

(** The values compared in [is_linux_os]: after [import platform] the name
    [platform] is bound to the module. *)
Inductive pyobj : Type :=
| PyModule (name : string)
| PyStr_ (s : string).

(** [a == b] *)
Definition py_eq (a b : pyobj) : bool :=
  match a, b with
  | PyModule x, PyModule y => String.eqb x y
  | PyStr_ x, PyStr_ y => String.eqb x y
  | _, _ => false
  end.

Definition platform : pyobj := PyModule "platform".

Definition is_linux_os : bool :=
  if py_eq platform (PyStr_ "linux") || py_eq platform (PyStr_ "linux2")
  then true else false.

(** ** The main block *)

(** [datetime.now()] as far as the program looks at it. *)
Record datetime : Type := { hour : nat; minute : nat; second : nat }.

Definition valid_time (d : datetime) : Prop :=
  (hour d < 24)%nat /\ (minute d < 60)%nat /\ (second d < 60)%nat.

Definition digit_char (n : nat) : ascii := ascii_of_nat (48 + n).

Definition two_digits (n : nat) : string :=
  String (digit_char (Nat.div n 10)) (PyStr.str1 (digit_char (Nat.modulo n 10))).

(** [d.strftime("%H:%M:%S")] *)
Definition strftime_HMS (d : datetime) : string :=
  two_digits (hour d) ++ ":" ++ two_digits (minute d) ++ ":" ++ two_digits (second d).

(** The host the process runs on. [host_platform] is what [sys.platform]
    says there; the program never asks for it. [file k] is the file system
    at the [k]-th call of [get_temperature] ([0] is the diagnostic read,
    [k + 1] the read of tick [k]); [now k] is the clock at tick [k]. *)
Record world : Type := {
  host_platform : string;
  glob : string -> list string;
  file : nat -> filesystem;
  now : nat -> datetime
}.

(** How a run of the process stands: it has exited with a code, an
    exception has propagated out of the main block, or it is still in
    the loop after the observed iterations. *)
Inductive status : Type :=
| Exit (code : Z)
| Uncaught (E : exn)
| Running.

Definition motd : M unit :=
  print "INFO: please run thoses commands before running this script:" ;;;
  print "'sudo modprobe w1-gpio' to enable GPIO communication for 1-Wire devices with w1-gpio kernel module." ;;;
  print "'sudo modprobe w1-therm' to load w1-therm kernel module for reading 1-Wire temperature sensors." ;;;
  print (String PyStr.nl (String PyStr.cr "Starting...") ++ String PyStr.nl (PyStr.str1 PyStr.cr)) ;;;
  sleep 3.

Section Monitor.

(** [str(x)] for a float, as the f-strings and [print] render it. *)
Variable float_str : PyFloat.float -> string.

(** The f-string of the message:
    [{"time": "<actual_time>", "temperature": "<actual_temp>"}]. *)
Definition payload (actual_time : string) (actual_temp : PyFloat.float) : string :=
  "{" ++ String PyStr.dq "time" ++ String PyStr.dq ": " ++ String PyStr.dq actual_time
  ++ String PyStr.dq ", " ++ String PyStr.dq "temperature" ++ String PyStr.dq ": "
  ++ String PyStr.dq (float_str actual_temp) ++ String PyStr.dq "}".

(** The f-string of the log line: [[<actual_time>]<tab><actual_temp>]. *)
Definition log_line (actual_time : string) (actual_temp : PyFloat.float) : string :=
  "[" ++ actual_time ++ "]" ++ String PyStr.tab (float_str actual_temp).

(** The f-string printed by the [except] branch of the loop. *)
Definition publish_error (E : exn) : string :=
  "Error: " ++ exn_str E
  ++ String PyStr.nl (String PyStr.cr "Unable to send data to Azure Service Bus Queue!").

(** One iteration of the loop, for a publish statement [publish] inside
    the [try]. *)
Definition tick_with (publish : string -> string -> M unit)
  (t : Thermometer) (w : world) (k : nat) : M unit :=
  let actual_time := strftime_HMS (now w k) in
  actual_temp <- get_temperature t (file w (S k)) ;;
  print (log_line actual_time actual_temp) ;;;
  try_except
    (publish "my_queue" (payload actual_time actual_temp))
    (fun E => print (publish_error E)) ;;;
  sleep (60 * 5).

(** [while True:], observed for [fuel] iterations from tick [k]. *)
Fixpoint loop_with (publish : string -> string -> M unit)
  (t : Thermometer) (w : world) (fuel k : nat) : trace * status :=
  match fuel with
  | O => ([], Running)
  | S fuel' =>
      match tick_with publish t w k with
      | (tr, Ok _) =>
          let '(tr', st) := loop_with publish t w fuel' (S k) in ((tr ++ tr')%list, st)
      | (tr, Raised E) => (tr, Uncaught E)
      end
  end.

(** The statement in the [try] as the source has it: the call of
    [n.pushData(...)] is an expression statement, its value (the coroutine
    object) is dropped. *)
Definition publish_stmt (n : Notifier) (queue_name data : string) : M unit :=
  pushData n queue_name data ;;; ret tt.

Definition tick (n : Notifier) := tick_with (publish_stmt n).

Definition loop (n : Notifier) := loop_with (publish_stmt n).

(** The main block after the platform test gave [linux]. *)
Definition program (linux : bool) (w : world) (fuel : nat) : trace * status :=
  if negb linux then
    ([Print "Error: this scrip cannot be runned on a non linux host"], Exit 1)
  else
    let t := Thermometer_init (glob w) "/sys/bus/w1/devices/28*/w1_slave" in
    let n := Notifier_init "S3CR3T" in
    match get_temperature t (file w 0) with
    | (tr, Ok actual_temp) =>
        let '(tr', st) := loop n t w fuel 0 in
        ((fst motd ++ tr ++ [Print (float_str actual_temp)] ++ tr')%list, st)
    | (tr, Raised E) =>
        ((fst motd ++ tr ++ [Print ("Error: " ++ exn_str E)%string])%list, Exit 1)
    end.

Definition main (w : world) (fuel : nat) : trace * status :=
  program is_linux_os w fuel.

End Monitor.

(** ** Vocabulary of the statements *)

(** A string of decimal digits and the integer it writes. *)
Fixpoint all_digits (s : string) : bool :=
  match s with
  | EmptyString => true
  | String c r => PyFloat.is_digit c && all_digits r
  end.

Fixpoint decimal_value (s : string) : Z :=
  match s with
  | EmptyString => 0
  | String c r => PyFloat.digit_val c * 10 ^ Z.of_nat (String.length r) + decimal_value r
  end.

(** The three deviations of a device content from the wire format, each
    with the exception it leads to: no second line, fewer than ten tokens
    on the second line, a tenth token whose text after the first two
    characters [float()] rejects. *)
Inductive malformed (content : string) : exn -> Prop :=
| no_second_line :
    (List.length (PyStr.split PyStr.nl content) < 2)%nat ->
    malformed content (IndexError "list index out of range")
| few_tokens (line : string) :
    nth_error (PyStr.split PyStr.nl content) 1 = Some line ->
    (List.length (PyStr.split PyStr.sp line) < 10)%nat ->
    malformed content (IndexError "list index out of range")
| bad_suffix (line token : string) :
    nth_error (PyStr.split PyStr.nl content) 1 = Some line ->
    nth_error (PyStr.split PyStr.sp line) 9 = Some token ->
    PyFloat.parse (PyStr.slice_from 2 token) = None ->
    malformed content
      (ValueError ("could not convert string to float: "
                   ++ PyStr.repr (PyStr.slice_from 2 token))).

(** The sensor read of tick [j] returns a temperature. *)
Definition read_ok (t : Thermometer) (w : world) (j : nat) : bool :=
  match snd (get_temperature t (file w (S j))) with
  | Ok _ => true
  | Raised _ => false
  end.

(** A string of the shape [HH:MM:SS], each letter a decimal digit. *)
Definition is_HMS (s : string) : bool :=
  match s with
  | String h1 (String h2 (String ":" (String m1 (String m2 (String ":"
      (String s1 (String s2 EmptyString))))))) =>
      PyFloat.is_digit h1 && PyFloat.is_digit h2 && PyFloat.is_digit m1
      && PyFloat.is_digit m2 && PyFloat.is_digit s1 && PyFloat.is_digit s2
  | _ => false
  end.

(** An event that hands a message to the messaging service. *)
Definition is_send (e : event) : bool :=
  match e with
  | SendMessages _ _ _ => true
  | _ => false
  end.

(** An event that only the body of the monitoring loop produces: its
    publish statement or its sleep of five minutes. *)
Definition is_loop_event (e : event) : bool :=
  match e with
  | CoroutineCreated _ _ => true
  | Sleep s => Z.eqb s 300
  | _ => false
  end.

(** Reading a flat object [{"k": "v", "k": "v", ...}] whose keys and
    values are strings without escapes, as a list of fields. *)
Fixpoint until_quote (s : string) : option (string * string) :=
  match s with
  | EmptyString => None
  | String c r =>
      if Ascii.eqb c PyStr.dq then Some (EmptyString, r)
      else match until_quote r with
           | Some (v, rest) => Some (String c v, rest)
           | None => None
           end
  end.

Definition quoted (s : string) : option (string * string) :=
  match s with
  | String c r => if Ascii.eqb c PyStr.dq then until_quote r else None
  | EmptyString => None
  end.

Fixpoint fields (fuel : nat) (s : string) : option (list (string * string)) :=
  match fuel with
  | O => None
  | S fuel' =>
      match quoted s with
      | Some (key, String ":" (String " " r)) =>
          match quoted r with
          | Some (value, "}") => Some [(key, value)]
          | Some (value, String "," (String " " r')) =>
              option_map (cons (key, value)) (fields fuel' r')
          | _ => None
          end
      | _ => None
      end
  end.

Definition flat_object (s : string) : option (list (string * string)) :=
  match s with
  | String "{" r => fields (String.length s) r
  | _ => None
  end.

(** Sample inputs: a device node, the content of a DS18B20 [w1_slave]
    file whose tenth token on the second line is [token], and a
    thermometer connected to that node. *)
Definition sample_path : string := "/sys/bus/w1/devices/28-0316a2797b2f/w1_slave".

Definition sample_content (token : string) : string :=
  "5a 01 4b 46 7f ff 0c 10 a1 : crc=a1 YES"
  ++ String PyStr.nl ("5a 01 4b 46 7f ff 0c 10 a1 " ++ token ++ PyStr.str1 PyStr.nl).

Definition sample_thermometer : Thermometer :=
  {| ds18b20_roots := [sample_path] |}.

Definition sample_fs (content : string) : filesystem := fun _ => Ok content.

(** A sample host: one device, whose file holds [token k] as tenth token
    at the [k]-th read, and a clock that starts at 09:05:00. *)
Definition sample_world (token : nat -> string) : world :=
  {| host_platform := "linux";
     glob := fun _ => [sample_path];
     file := fun k => sample_fs (sample_content (token k));
     now := fun k => {| hour := 9; minute := 5; second := Nat.modulo k 60 |} |}.

(** A stand-in for [str] on floats, enough to run the samples, whose
    readings are all 21.437. *)
Definition sample_float_str : PyFloat.float -> string := fun _ => "21.437".

(** A messaging service that refuses every message. *)
Definition bus_down : servicebus :=
  {| open_sender := fun _ _ => Ok tt;
     send_messages := fun _ _ _ => Raised (OSError "connection refused") |}.

(** A publish statement that does run the coroutine, as
    [asyncio.run(n.pushData(...))] would. *)
Definition publish_awaited (n : Notifier) (bus : servicebus)
  (queue_name data : string) : M unit :=
  (co <- pushData n queue_name data ;; co_run co bus)%py.

(** [sep.join(l)] *)
Fixpoint join (sep : ascii) (l : list string) : string :=
  match l with
  | [] => EmptyString
  | x :: t =>
      match t with
      | [] => x
      | _ :: _ => x ++ String sep (join sep t)
      end
  end.

(** A token holds neither a space nor a line feed. *)
Definition is_token (s : string) : bool :=
  negb (PyStr.mem PyStr.sp s) && negb (PyStr.mem PyStr.nl s).

(** A device text by its parts: a first line, the tokens of the second
    line, and what follows the second line, if anything does. *)
Definition device_text (first : string) (tokens : list string)
  (more : option string) : string :=
  first ++ String PyStr.nl
    (join PyStr.sp tokens
     ++ match more with
        | None => EmptyString
        | Some m => String PyStr.nl m
        end).

(** Counting the events of a trace. *)
Definition is_read (e : event) : bool :=
  match e with
  | ReadFile _ => true
  | _ => false
  end.

Definition is_coroutine (e : event) : bool :=
  match e with
  | CoroutineCreated _ _ => true
  | _ => false
  end.

Definition count (f : event -> bool) (tr : trace) : nat :=
  List.length (filter f tr).

(** The seconds a trace sleeps in all. *)
Fixpoint slept (tr : trace) : Z :=
  match tr with
  | [] => 0
  | Sleep s :: r => s + slept r
  | _ :: r => slept r
  end.

(** Every file read of a trace is a read of the first match of the
    device pattern [roots]. *)
Definition reads_first_root (roots : list string) (tr : trace) : bool :=
  forallb (fun e =>
             match e, roots with
             | ReadFile q, p :: _ => String.eqb p q
             | ReadFile _, [] => false
             | _, _ => true
             end) tr.

(** The thermometer of the main block, and whether its diagnostic read
    returns a temperature. *)
Definition startup_thermometer (w : world) : Thermometer :=
  Thermometer_init (glob w) "/sys/bus/w1/devices/28*/w1_slave".

Definition diagnostic_ok (w : world) : bool :=
  match snd (get_temperature (startup_thermometer w) (file w 0)) with
  | Ok _ => true
  | Raised _ => false
  end.

(** The trace holds [print(text)]. *)
Definition printed (text : string) (tr : trace) : bool :=
  existsb (fun e =>
             match e with
             | Print s => String.eqb s text
             | _ => false
             end) tr.

(** ** Properties of the string and float layer *)

Lemma digit_facts (c : ascii) :
  PyFloat.is_digit c = true ->
  Ascii.eqb c "_" = false /\ PyFloat.is_space c = false /\
  (forall r, PyFloat.sign (String c r) = (false, String c r)) /\
  0 <= PyFloat.digit_val c <= 9.
Proof.
  destruct c as [[] [] [] [] [] [] [] []]; vm_compute; intros H;
    try discriminate H; repeat split; congruence.
Qed.

Lemma decimal_value_nonneg (ds : string) :
  all_digits ds = true -> 0 <= decimal_value ds.
Proof.
  induction ds as [|c r IH]; intros H;
    cbn [all_digits decimal_value] in *; [lia|].
  apply andb_prop in H as [Hc Hr].
  destruct (digit_facts c Hc) as (_ & _ & _ & Hv).
  specialize (IH Hr).
  assert (0 <= 10 ^ Z.of_nat (String.length r)) by (apply Z.pow_nonneg; lia).
  nia.
Qed.

(** The digit scanner reads a string of digits to its end, in base ten. *)
Lemma digits_acc_all_digits (ds : string) :
  all_digits ds = true ->
  forall acc len,
    PyFloat.digits_acc acc len ds
    = (acc * 10 ^ Z.of_nat (String.length ds) + decimal_value ds,
       (len + String.length ds)%nat, EmptyString).
Proof.
  induction ds as [|c r IH]; intros H acc len;
    cbn [all_digits PyFloat.digits_acc decimal_value String.length] in *.
  - cbn [Z.of_nat]. rewrite Z.pow_0_r, Z.mul_1_r, Z.add_0_r, Nat.add_0_r. reflexivity.
  - apply andb_prop in H as [Hc Hr]. rewrite Hc, (IH Hr).
    rewrite Nat2Z.inj_succ, Z.pow_succ_r by lia.
    rewrite Nat.add_succ_r. do 2 f_equal. ring.
Qed.

Lemma strip_underscores_digits (ds : string) :
  all_digits ds = true ->
  forall prev, Ascii.eqb prev "_" = false ->
    PyFloat.strip_underscores prev ds = Some ds.
Proof.
  induction ds as [|c r IH]; simpl; intros H prev Hp.
  - rewrite Hp. reflexivity.
  - apply andb_prop in H as [Hc Hr].
    destruct (digit_facts c Hc) as (Hu & _).
    rewrite Hu, Hp. simpl. rewrite (IH Hr c Hu). reflexivity.
Qed.

Lemma rstrip_digits (ds : string) :
  all_digits ds = true -> PyFloat.rstrip ds = ds.
Proof.
  induction ds as [|c r IH]; simpl; intros H; [reflexivity|].
  apply andb_prop in H as [Hc Hr]. rewrite (IH Hr).
  destruct (digit_facts c Hc) as (_ & Hs & _).
  destruct r; [rewrite Hs|]; reflexivity.
Qed.


(** *** Division by 1000 of an integer reading

    A float of an integer below [2 ^ 53] holds that integer exactly, so
    dividing it by the float [1000] rounds the quotient once: the result
    is the double nearest to [m / 1000], which [of_decimal] computes from
    the integers [m] and [1000] themselves. *)












(** Past 53 bits the float of the integer is itself rounded, and the
    quotient can be one unit in the last place away from the double
    nearest to [m / 1000]. *)
Example div_1000_past_53_bits :
  PyFloat.of_Z 9007199254740995 = PyFloat.of_Z 9007199254740996
  /\ PyFloat.div (PyFloat.of_Z 9007199254740995) (PyFloat.of_Z 1000)
     = S754_finite false 4611686018427390 (-9)
  /\ PyFloat.of_decimal false 9007199254740995 (-3)
     = S754_finite false 4611686018427389 (-9).
Proof. repeat split; vm_compute; reflexivity. Qed.

(** ** Properties of [Thermometer] *)

(** What [get_temperature] does on a connected thermometer whose device
    file can be read: one case per statement of the method. *)
Lemma get_temperature_connected (t : Thermometer) (fs : filesystem)
  (p : string) (rest : list string) (content : string) :
  ds18b20_roots t = p :: rest -> fs p = Ok content ->
  get_temperature t fs =
  ([ReadFile p],
   match nth_error (PyStr.split PyStr.nl content) 1 with
   | None => Raised (IndexError "list index out of range")
   | Some line =>
       match nth_error (PyStr.split PyStr.sp line) 9 with
       | None => Raised (IndexError "list index out of range")
       | Some token =>
           match PyFloat.parse (PyStr.slice_from 2 token) with
           | None => Raised (ValueError ("could not convert string to float: "
                                         ++ PyStr.repr (PyStr.slice_from 2 token)))
           | Some x => Ok (PyFloat.div x (PyFloat.of_Z 1000))
           end
       end
   end).
Proof.
  intros Hroots Hfs.
  unfold get_temperature, check_thermometer_connection, read_file.
  rewrite Hroots. change (index (p :: rest) 0) with (@ret string p).
  cbn [List.length Nat.ltb Nat.leb ret bind]. rewrite Hfs. unfold index.
  destruct (nth_error (PyStr.split PyStr.nl content) 1) as [line|]; [|reflexivity].
  cbn [ret bind].
  destruct (nth_error (PyStr.split PyStr.sp line) 9) as [token|]; [|reflexivity].
  cbn [ret bind]. unfold float_of_str.
  destruct (PyFloat.parse (PyStr.slice_from 2 token)); reflexivity.
Qed.

Lemma get_temperature_unreadable (t : Thermometer) (fs : filesystem)
  (p : string) (rest : list string) (E : exn) :
  ds18b20_roots t = p :: rest -> fs p = Raised E ->
  get_temperature t fs = ([ReadFile p], Raised E).
Proof.
  intros Hroots Hfs.
  unfold get_temperature, check_thermometer_connection, read_file.
  rewrite Hroots. change (index (p :: rest) 0) with (@ret string p).
  cbn [List.length Nat.ltb Nat.leb ret bind]. rewrite Hfs. reflexivity.
Qed.

Lemma get_temperature_disconnected (t : Thermometer) (fs : filesystem) :
  ds18b20_roots t = [] ->
  get_temperature t fs =
  ([], Raised (Exception
     "unable to get temperature. Please check device connection, or configured ds18b20_roots!")).
Proof.
  intros Hroots. unfold get_temperature, check_thermometer_connection.
  rewrite Hroots. reflexivity.
Qed.

(** A call of [get_temperature] reads at most one file, the first root,
    and produces no other event. *)
Lemma get_temperature_trace (t : Thermometer) (fs : filesystem) :
  fst (get_temperature t fs) =
  match ds18b20_roots t with
  | [] => []
  | p :: _ => [ReadFile p]
  end.
Proof.
  destruct (ds18b20_roots t) as [|p rest] eqn:Hroots.
  - rewrite (get_temperature_disconnected t fs Hroots). reflexivity.
  - destruct (fs p) as [content|E] eqn:Hfs.
    + rewrite (get_temperature_connected t fs p rest content Hroots Hfs). reflexivity.
    + rewrite (get_temperature_unreadable t fs p rest E Hroots Hfs). reflexivity.
Qed.



(** C10. The first two characters of the tenth token are dropped without
    being looked at, and whatever [float()] accepts after them is taken:
    the reading is the parsed float divided by the float [1000]. *)
Theorem get_temperature_accepts_any_float (t : Thermometer) (fs : filesystem)
  (p : string) (rest : list string) (content line : string)
  (c1 c2 : ascii) (s : string) (x : PyFloat.float) :
  ds18b20_roots t = p :: rest -> fs p = Ok content ->
  nth_error (PyStr.split PyStr.nl content) 1 = Some line ->
  nth_error (PyStr.split PyStr.sp line) 9 = Some (String c1 (String c2 s)) ->
  PyFloat.parse s = Some x ->
  get_temperature t fs = ([ReadFile p], Ok (PyFloat.div x (PyFloat.of_Z 1000))).
Proof.
  intros Hroots Hfs Hline Htok Hx.
  rewrite (get_temperature_connected t fs p rest content Hroots Hfs).
  rewrite Hline, Htok. cbn [PyStr.slice_from]. rewrite Hx. reflexivity.
Qed.

Lemma get_temperature_accepts_any_float_witness :
  get_temperature sample_thermometer (sample_fs (sample_content "xy23562")) =
    ([ReadFile sample_path],
     Ok (PyFloat.div (PyFloat.of_Z 23562) (PyFloat.of_Z 1000)))
  /\ get_temperature sample_thermometer (sample_fs (sample_content "t=1.5")) =
    ([ReadFile sample_path],
     Ok (PyFloat.div (PyFloat.of_decimal false 15 (-1)) (PyFloat.of_Z 1000)))
  /\ get_temperature sample_thermometer (sample_fs (sample_content "t=1e3")) =
    ([ReadFile sample_path],
     Ok (PyFloat.div (PyFloat.of_decimal false 1 3) (PyFloat.of_Z 1000)))
  /\ get_temperature sample_thermometer (sample_fs (sample_content "t=nan")) =
    ([ReadFile sample_path], Ok (PyFloat.div S754_nan (PyFloat.of_Z 1000))).
Proof.
  split; [|split; [|split]].
  - apply (get_temperature_accepts_any_float sample_thermometer
             (sample_fs (sample_content "xy23562")) sample_path []
             (sample_content "xy23562") "5a 01 4b 46 7f ff 0c 10 a1 xy23562"
             "x" "y" "23562"); reflexivity.
  - apply (get_temperature_accepts_any_float sample_thermometer
             (sample_fs (sample_content "t=1.5")) sample_path []
             (sample_content "t=1.5") "5a 01 4b 46 7f ff 0c 10 a1 t=1.5"
             "t" "=" "1.5"); reflexivity.
  - apply (get_temperature_accepts_any_float sample_thermometer
             (sample_fs (sample_content "t=1e3")) sample_path []
             (sample_content "t=1e3") "5a 01 4b 46 7f ff 0c 10 a1 t=1e3"
             "t" "=" "1e3"); reflexivity.
  - apply (get_temperature_accepts_any_float sample_thermometer
             (sample_fs (sample_content "t=nan")) sample_path []
             (sample_content "t=nan") "5a 01 4b 46 7f ff 0c 10 a1 t=nan"
             "t" "=" "nan"); reflexivity.
Defined.

(** C2, as the code has it. On a connected thermometer whose device file
    can be read, each deviation from the wire format ends the call with a
    built-in exception and no reading: [IndexError] with the fixed message
    "list index out of range" when the second line or the tenth token is
    missing, [ValueError] naming the text after the first two characters
    of the tenth token when [float()] rejects that text. *)
Theorem get_temperature_malformed (t : Thermometer) (fs : filesystem)
  (p : string) (rest : list string) (content : string) (E : exn) :
  ds18b20_roots t = p :: rest -> fs p = Ok content ->
  malformed content E ->
  get_temperature t fs = ([ReadFile p], Raised E).
Proof.
  intros Hroots Hfs Hbad.
  rewrite (get_temperature_connected t fs p rest content Hroots Hfs).
  destruct Hbad as [Hlen | line Hline Hlen | line token Hline Htok Hparse].
  - assert (Hnone : nth_error (PyStr.split PyStr.nl content) 1 = None)
      by (apply nth_error_None; lia).
    rewrite Hnone. reflexivity.
  - assert (Hnone : nth_error (PyStr.split PyStr.sp line) 9 = None)
      by (apply nth_error_None; lia).
    rewrite Hline, Hnone. reflexivity.
  - rewrite Hline, Htok, Hparse. reflexivity.
Qed.

Lemma get_temperature_malformed_witness :
  get_temperature sample_thermometer (sample_fs "5a 01 4b 46 7f ff 0c 10 a1 t=23562") =
    ([ReadFile sample_path], Raised (IndexError "list index out of range"))
  /\ get_temperature sample_thermometer
       (sample_fs ("YES" ++ String PyStr.nl "5a 01 4b t=23562")) =
    ([ReadFile sample_path], Raised (IndexError "list index out of range"))
  /\ get_temperature sample_thermometer (sample_fs (sample_content "t=abc")) =
    ([ReadFile sample_path],
     Raised (ValueError "could not convert string to float: 'abc'")).
Proof.
  split; [|split].
  - apply (get_temperature_malformed sample_thermometer _ sample_path []
             "5a 01 4b 46 7f ff 0c 10 a1 t=23562"); [reflexivity | reflexivity | ].
    apply no_second_line. vm_compute. lia.
  - apply (get_temperature_malformed sample_thermometer _ sample_path []
             ("YES" ++ String PyStr.nl "5a 01 4b t=23562")); [reflexivity | reflexivity | ].
    apply (few_tokens _ "5a 01 4b t=23562"); [reflexivity | vm_compute; lia].
  - apply (get_temperature_malformed sample_thermometer _ sample_path []
             (sample_content "t=abc")); [reflexivity | reflexivity | ].
    apply (bad_suffix _ "5a 01 4b 46 7f ff 0c 10 a1 t=abc" "t=abc"); reflexivity.
Defined.

(** C2 as the spec words it fails twice. On a second line with fewer
    than ten tokens the exception is the [IndexError] of the list access,
    and its message does not hold the raw line. And a tenth token whose
    text after the prefix is the word [nan], not a number, is accepted: the
    call returns a reading, the float NaN. *)
Lemma get_temperature_error_without_line :
  get_temperature sample_thermometer
    (sample_fs ("YES" ++ String PyStr.nl "5a 01 4b t=23562")) =
    ([ReadFile sample_path], Raised (IndexError "list index out of range"))
  /\ PyStr.contains "5a 01 4b t=23562"
       (exn_str (IndexError "list index out of range")) = false
  /\ get_temperature sample_thermometer (sample_fs (sample_content "t=nan")) =
    ([ReadFile sample_path], Ok S754_nan).
Proof. split; [|split]; vm_compute; reflexivity. Qed.

(** C5. [check_thermometer_connection] is true exactly when the pattern
    had a match. Without a match [get_temperature] raises the exception of
    its [else] branch and reads no file; with a match the one file it
    reads is the first match. *)
Theorem connection_check (glob : string -> list string) (device_root : string)
  (fs : filesystem) :
  let t := Thermometer_init glob device_root in
  (check_thermometer_connection t = true <-> glob device_root <> [])
  /\ match glob device_root with
     | [] =>
         check_thermometer_connection t = false
         /\ get_temperature t fs =
            ([], Raised (Exception
               "unable to get temperature. Please check device connection, or configured ds18b20_roots!"))
     | p :: _ => fst (get_temperature t fs) = [ReadFile p]
     end.
Proof.
  intros t. subst t.
  split.
  - unfold check_thermometer_connection, Thermometer_init. cbn [ds18b20_roots].
    destruct (glob device_root); cbn; split; congruence.
  - pose proof (get_temperature_trace (Thermometer_init glob device_root) fs) as Htr.
    unfold Thermometer_init in *. cbn [ds18b20_roots] in Htr.
    destruct (glob device_root) as [|p rest] eqn:Hglob.
    + split; [reflexivity|].
      apply get_temperature_disconnected. reflexivity.
    + exact Htr.
Qed.

(** ** Properties of the main block *)

(** C3. Whatever the host, the platform test is false and the process
    prints the platform error and exits with code 1, before the message of
    the day and before any sensor read: [platform] in [is_linux_os] is the
    imported module, which equals no string. *)
Theorem main_exits_on_every_host (float_str : PyFloat.float -> string)
  (w : world) (fuel : nat) :
  is_linux_os = false
  /\ main float_str w fuel =
     ([Print "Error: this scrip cannot be runned on a non linux host"], Exit 1).
Proof. split; reflexivity. Qed.

Section Properties.

Variable float_str : PyFloat.float -> string.

Lemma tick_with_read_ok (publish : string -> string -> M unit)
  (t : Thermometer) (w : world) (k : nat) (rd : trace) (x : PyFloat.float) :
  get_temperature t (file w (S k)) = (rd, Ok x) ->
  tick_with float_str publish t w k =
  ((rd ++ [Print (log_line float_str (strftime_HMS (now w k)) x)]
    ++ fst (publish "my_queue" (payload float_str (strftime_HMS (now w k)) x))
    ++ match snd (publish "my_queue" (payload float_str (strftime_HMS (now w k)) x)) with
       | Ok _ => []
       | Raised E => [Print (publish_error E)]
       end
    ++ [Sleep 300])%list, Ok tt).
Proof.
  intros Hrd. unfold tick_with. cbv zeta. rewrite Hrd.
  cbn [bind print fst snd].
  destruct (publish "my_queue" (payload float_str (strftime_HMS (now w k)) x))
    as [tr [[]|E]]; cbn [bind print sleep try_except fst snd];
    rewrite <- ?app_assoc; reflexivity.
Qed.

Lemma tick_with_read_raised (publish : string -> string -> M unit)
  (t : Thermometer) (w : world) (k : nat) (rd : trace) (E : exn) :
  get_temperature t (file w (S k)) = (rd, Raised E) ->
  tick_with float_str publish t w k = (rd, Raised E).
Proof. intros Hrd. unfold tick_with. rewrite Hrd. reflexivity. Qed.

Lemma loop_with_step (publish : string -> string -> M unit)
  (t : Thermometer) (w : world) (fuel k : nat) (tr : trace) :
  tick_with float_str publish t w k = (tr, Ok tt) ->
  loop_with float_str publish t w (S fuel) k =
  ((tr ++ fst (loop_with float_str publish t w fuel (S k)))%list,
   snd (loop_with float_str publish t w fuel (S k))).
Proof.
  intros Htick. cbn [loop_with]. rewrite Htick.
  destruct (loop_with float_str publish t w fuel (S k)). reflexivity.
Qed.

Lemma tick_with_trace_prefix (publish : string -> string -> M unit)
  (t : Thermometer) (w : world) (k : nat) :
  exists rest,
    fst (tick_with float_str publish t w k)
    = (fst (get_temperature t (file w (S k))) ++ rest)%list.
Proof.
  destruct (get_temperature t (file w (S k))) as [rd [x|E]] eqn:Hrd.
  - rewrite (tick_with_read_ok publish t w k rd x Hrd). cbn [fst].
    eexists. reflexivity.
  - rewrite (tick_with_read_raised publish t w k rd E Hrd). cbn [fst].
    exists []. rewrite app_nil_r. reflexivity.
Qed.

Lemma loop_with_trace_prefix (publish : string -> string -> M unit)
  (t : Thermometer) (w : world) (fuel k : nat) :
  exists rest,
    fst (loop_with float_str publish t w (S fuel) k)
    = (fst (get_temperature t (file w (S k))) ++ rest)%list.
Proof.
  destruct (tick_with_trace_prefix publish t w k) as [rest Hrest].
  cbn [loop_with].
  destruct (tick_with float_str publish t w k) as [tr [u|E]]; cbn [fst] in Hrest.
  - destruct (loop_with float_str publish t w fuel (S k)) as [tr' st].
    cbn [fst]. rewrite Hrest, <- app_assoc. eexists. reflexivity.
  - cbn [fst]. exists rest. exact Hrest.
Qed.

(** C6. Whatever the publish statement of tick [N] does, raising
    included, the tick ends normally: an exception of the publish
    statement is caught and logged, the sleep of five minutes follows,
    and the loop goes on with tick [N + 1], whose first act is its sensor
    read. *)
Theorem publish_failure_contained (publish : string -> string -> M unit)
  (t : Thermometer) (w : world) (N : nat) (rd : trace) (x : PyFloat.float) :
  get_temperature t (file w (S N)) = (rd, Ok x) ->
  let pub := publish "my_queue" (payload float_str (strftime_HMS (now w N)) x) in
  tick_with float_str publish t w N =
    ((rd ++ [Print (log_line float_str (strftime_HMS (now w N)) x)]
      ++ fst pub
      ++ match snd pub with
         | Ok _ => []
         | Raised E => [Print (publish_error E)]
         end
      ++ [Sleep 300])%list, Ok tt)
  /\ (forall fuel,
        loop_with float_str publish t w (S fuel) N =
        ((fst (tick_with float_str publish t w N)
          ++ fst (loop_with float_str publish t w fuel (S N)))%list,
         snd (loop_with float_str publish t w fuel (S N))))
  /\ (forall fuel, exists rest,
        fst (loop_with float_str publish t w (S fuel) (S N))
        = (fst (get_temperature t (file w (S (S N)))) ++ rest)%list).
Proof.
  intros Hrd pub. subst pub.
  pose proof (tick_with_read_ok publish t w N rd x Hrd) as Htick.
  split; [exact Htick | split].
  - intros fuel. rewrite (loop_with_step publish t w fuel N _ Htick).
    rewrite Htick. reflexivity.
  - intros fuel. apply loop_with_trace_prefix.
Qed.

(** C9. While the sensor reads succeed the loop keeps running, one tick
    after the other, whatever the publish statement does; at the first
    tick whose sensor read raises, the exception leaves the loop uncaught
    right after the events of that read, and nothing of the loop runs
    after it. *)
Theorem loop_stops_only_on_sensor_failure (publish : string -> string -> M unit)
  (t : Thermometer) (w : world) (fuel k : nat) :
  forallb (read_ok t w) (seq k fuel) = true ->
  snd (loop_with float_str publish t w fuel k) = Running
  /\ fst (loop_with float_str publish t w fuel k)
     = List.concat (map (fun j => fst (tick_with float_str publish t w j)) (seq k fuel))
  /\ (forall rd E extra,
        get_temperature t (file w (S (k + fuel))) = (rd, Raised E) ->
        loop_with float_str publish t w (fuel + S extra) k =
        ((fst (loop_with float_str publish t w fuel k) ++ rd)%list, Uncaught E)).
Proof.
  revert k. induction fuel as [|fuel IH]; intros k Hok.
  - split; [reflexivity | split; [reflexivity|]].
    intros rd E extra Hrd. rewrite Nat.add_0_r in Hrd.
    cbn [Nat.add loop_with].
    rewrite (tick_with_read_raised publish t w k rd E Hrd). reflexivity.
  - cbn [seq forallb] in Hok. apply andb_prop in Hok as [Hk Hrest].
    unfold read_ok in Hk.
    destruct (get_temperature t (file w (S k))) as [rd0 [x|E0]] eqn:Hrd0;
      cbn [snd] in Hk; [|discriminate Hk].
    pose proof (tick_with_read_ok publish t w k rd0 x Hrd0) as Htick.
    destruct (IH (S k) Hrest) as (Hrun & Htr & Hstop).
    rewrite (loop_with_step publish t w fuel k _ Htick).
    cbn [fst snd seq map concat].
    split; [exact Hrun | split].
    + rewrite Htr, Htick. reflexivity.
    + intros rd E extra Hrd.
      replace (k + S fuel)%nat with (S k + fuel)%nat in Hrd by lia.
      cbn [Nat.add].
      rewrite (loop_with_step publish t w (fuel + S extra) k _ Htick).
      rewrite (Hstop rd E extra Hrd). cbn [fst snd].
      rewrite app_assoc. reflexivity.
Qed.

Lemma get_temperature_quiet (t : Thermometer) (fs : filesystem) :
  existsb is_send (fst (get_temperature t fs)) = false
  /\ existsb is_loop_event (fst (get_temperature t fs)) = false.
Proof.
  rewrite (get_temperature_trace t fs).
  destruct (ds18b20_roots t); split; reflexivity.
Qed.

Lemma publish_stmt_run (n : Notifier) (queue_name data : string) :
  publish_stmt n queue_name data = ([CoroutineCreated queue_name data], Ok tt).
Proof. reflexivity. Qed.

Lemma tick_no_send (n : Notifier) (t : Thermometer) (w : world) (k : nat) :
  existsb is_send (fst (tick float_str n t w k)) = false.
Proof.
  unfold tick.
  destruct (get_temperature_quiet t (file w (S k))) as [Hquiet _].
  destruct (get_temperature t (file w (S k))) as [rd [x|E]] eqn:Hrd;
    cbn [fst] in Hquiet.
  - rewrite (tick_with_read_ok (publish_stmt n) t w k rd x Hrd).
    rewrite publish_stmt_run. cbn [fst snd].
    rewrite existsb_app, Hquiet. reflexivity.
  - rewrite (tick_with_read_raised (publish_stmt n) t w k rd E Hrd).
    exact Hquiet.
Qed.

Lemma loop_no_send (n : Notifier) (t : Thermometer) (w : world) (fuel k : nat) :
  existsb is_send (fst (loop float_str n t w fuel k)) = false.
Proof.
  revert k. induction fuel as [|fuel IH]; intros k; [reflexivity|].
  pose proof (tick_no_send n t w k) as Htick. specialize (IH (S k)).
  unfold loop, tick in *. cbn [loop_with].
  destruct (tick_with float_str (publish_stmt n) t w k) as [tr [u|E]];
    cbn [fst] in Htick.
  - destruct (loop_with float_str (publish_stmt n) t w fuel (S k)) as [tr' st].
    cbn [fst] in *. rewrite existsb_app, Htick, IH. reflexivity.
  - exact Htick.
Qed.

(** C1. No run of the main block hands a message to the messaging
    service: the publish statement of the loop only creates the coroutine
    object of [pushData] and drops it, and the body, which is what sends,
    is never run by any event loop. *)
Theorem pushData_never_awaited (linux : bool) (w : world) (fuel : nat) :
  existsb is_send (fst (program float_str linux w fuel)) = false
  /\ (forall n queue_name data,
        publish_stmt n queue_name data
        = ([CoroutineCreated queue_name data], Ok tt))
  /\ (forall n queue_name data bus,
        open_sender bus (connection_str n) queue_name = Ok tt ->
        existsb is_send (fst (pushData_body n queue_name data bus)) = true).
Proof.
  split; [|split].
  - unfold program. destruct linux; [|reflexivity]. cbn [negb].
    set (t := Thermometer_init (glob w) "/sys/bus/w1/devices/28*/w1_slave").
    destruct (get_temperature_quiet t (file w 0)) as [Hquiet _].
    pose proof (loop_no_send (Notifier_init "S3CR3T") t w fuel 0) as Hloop.
    destruct (get_temperature t (file w 0)) as [rd [x|E]]; cbn [fst] in Hquiet.
    + destruct (loop float_str (Notifier_init "S3CR3T") t w fuel 0) as [tr st].
      cbn [fst] in *. rewrite !existsb_app, Hquiet, Hloop. reflexivity.
    + cbn [fst]. rewrite !existsb_app, Hquiet. reflexivity.
  - intros n queue_name data. reflexivity.
  - intros n queue_name data bus Hopen. unfold pushData_body.
    rewrite Hopen.
    destruct (send_messages bus (connection_str n) queue_name data) as [[]|E];
      reflexivity.
Qed.

(** X11. Once the platform test has let the main block through, it reads
    the sensor once before the loop. When that read raises, the process
    prints the error and exits with code 1, and its trace holds no event
    of the loop; when it succeeds, the reading is printed and the loop
    starts. With no match of the pattern the read raises without touching
    a file. This is the start-up block by itself: no run of [main] gets
    to it, as the last section shows. *)
Theorem startup_diagnostic_read (w : world) (fuel : nat) :
  let t := Thermometer_init (glob w) "/sys/bus/w1/devices/28*/w1_slave" in
  let n := Notifier_init "S3CR3T" in
  match get_temperature t (file w 0) with
  | (rd, Raised E) =>
      program float_str true w fuel =
        ((fst motd ++ rd ++ [Print ("Error: " ++ exn_str E)%string])%list, Exit 1)
      /\ existsb is_loop_event (fst (program float_str true w fuel)) = false
  | (rd, Ok x) =>
      program float_str true w fuel =
        ((fst motd ++ rd ++ [Print (float_str x)]
          ++ fst (loop float_str n t w fuel 0))%list,
         snd (loop float_str n t w fuel 0))
  end
  /\ match glob w "/sys/bus/w1/devices/28*/w1_slave" with
     | [] =>
         program float_str true w fuel =
           ((fst motd ++
             [Print "Error: unable to get temperature. Please check device connection, or configured ds18b20_roots!"])%list,
            Exit 1)
     | p :: _ => fst (get_temperature t (file w 0)) = [ReadFile p]
     end.
Proof.
  intros t n. split.
  - unfold program. cbn [negb]. fold t. fold n.
    destruct (get_temperature_quiet t (file w 0)) as [_ Hquiet].
    destruct (get_temperature t (file w 0)) as [rd [x|E]]; cbn [fst] in Hquiet.
    + destruct (loop float_str n t w fuel 0) as [tr st]. reflexivity.
    + split; [reflexivity|]. cbn [fst].
      rewrite !existsb_app, Hquiet. reflexivity.
  - pose proof (get_temperature_trace t (file w 0)) as Htr.
    unfold program. cbn [negb]. fold t.
    subst t. unfold Thermometer_init in *. cbn [ds18b20_roots] in Htr.
    destruct (glob w "/sys/bus/w1/devices/28*/w1_slave") as [|p rest] eqn:Hglob.
    + rewrite (get_temperature_disconnected {| ds18b20_roots := [] |} (file w 0) eq_refl).
      reflexivity.
    + exact Htr.
Qed.

Lemma digit_char_is_digit (q : nat) :
  (q < 10)%nat -> PyFloat.is_digit (digit_char q) = true.
Proof.
  intros Hq. do 10 (destruct q as [|q]; [reflexivity|]). lia.
Qed.

Lemma strftime_HMS_shape (d : datetime) :
  valid_time d -> is_HMS (strftime_HMS d) = true.
Proof.
  intros (Hh & Hm & Hs).
  unfold strftime_HMS, two_digits, PyStr.str1. cbn [append is_HMS].
  rewrite !digit_char_is_digit; try reflexivity;
    solve [ apply Nat.mod_upper_bound; lia
          | apply Nat.Div0.div_lt_upper_bound; lia ].
Qed.

Lemma is_HMS_no_quote (s : string) :
  is_HMS s = true -> PyStr.mem PyStr.dq s = false.
Proof.
  assert (Hd : forall c, PyFloat.is_digit c = true -> Ascii.eqb PyStr.dq c = false).
  { intros c. destruct c as [[] [] [] [] [] [] [] []]; vm_compute; congruence. }
  assert (Hc : forall c (P Q : bool),
             match c with ":"%char => P | _ => Q end = true ->
             Q = false -> c = ":"%char).
  { intros c P Q. destruct c as [[] [] [] [] [] [] [] []]; congruence. }
  destruct s as [|h1 s]; [discriminate|].
  destruct s as [|h2 s]; [discriminate|].
  destruct s as [|c1 s]; [discriminate|].
  destruct s as [|m1 s]; [destruct c1 as [[] [] [] [] [] [] [] []]; discriminate|].
  destruct s as [|m2 s]; [destruct c1 as [[] [] [] [] [] [] [] []]; discriminate|].
  destruct s as [|c2 s]; [destruct c1 as [[] [] [] [] [] [] [] []]; discriminate|].
  intros H. unfold is_HMS in H.
  pose proof (Hc c1 _ _ H eq_refl) as ->.
  destruct s as [|s1 s]; [destruct c2 as [[] [] [] [] [] [] [] []]; discriminate|].
  destruct s as [|s2 s]; [destruct c2 as [[] [] [] [] [] [] [] []]; discriminate|].
  pose proof (Hc c2 _ _ H eq_refl) as ->.
  destruct s; [|discriminate].
  do 5 (apply andb_prop in H as [H ?]).
  cbn [PyStr.mem]. rewrite (Hd h1), (Hd h2), (Hd m1), (Hd m2), (Hd s1), (Hd s2) by assumption. reflexivity.
Qed.

Lemma until_quote_app (s r : string) :
  PyStr.mem PyStr.dq s = false ->
  until_quote (s ++ String PyStr.dq r) = Some (s, r).
Proof.
  induction s as [|c s IH]; cbn [append until_quote PyStr.mem]; intros H.
  - rewrite Ascii.eqb_refl. reflexivity.
  - apply orb_false_elim in H as [Hc Hs].
    rewrite Ascii.eqb_sym, Hc, (IH Hs). reflexivity.
Qed.

(** The reader of flat objects on a text of two quoted fields. *)
Lemma fields_two (fuel : nat) (k1 v1 k2 v2 : string) :
  PyStr.mem PyStr.dq k1 = false -> PyStr.mem PyStr.dq v1 = false ->
  PyStr.mem PyStr.dq k2 = false -> PyStr.mem PyStr.dq v2 = false ->
  fields (S (S fuel))
    (String PyStr.dq (k1 ++ String PyStr.dq (": " ++ String PyStr.dq (v1
       ++ String PyStr.dq (", " ++ String PyStr.dq (k2 ++ String PyStr.dq (": "
       ++ String PyStr.dq (v2 ++ String PyStr.dq "}"))))))))
  = Some [(k1, v1); (k2, v2)].
Proof.
  intros Hk1 Hv1 Hk2 Hv2.
  cbn [fields quoted]. rewrite Ascii.eqb_refl, (until_quote_app k1 _ Hk1).
  cbn [append quoted]. rewrite Ascii.eqb_refl, (until_quote_app v1 _ Hv1).
  cbn [append fields quoted]. rewrite Ascii.eqb_refl, (until_quote_app k2 _ Hk2).
  cbn [append quoted]. rewrite Ascii.eqb_refl, (until_quote_app v2 _ Hv2).
  reflexivity.
Qed.

(** C8. In a tick whose sensor read succeeds, the call of [pushData]
    gets the queue name "my_queue" and a text that reads as an object of
    exactly two fields, [time] with the [HH:MM:SS] string and
    [temperature] with the string of the reading, both between double
    quotes; the body of [pushData], when run, hands that same text to the
    queue. *)
Theorem tick_payload (n : Notifier) (t : Thermometer) (w : world) (k : nat)
  (rd : trace) (x : PyFloat.float) :
  get_temperature t (file w (S k)) = (rd, Ok x) ->
  valid_time (now w k) ->
  PyStr.mem PyStr.dq (float_str x) = false ->
  let hms := strftime_HMS (now w k) in
  let data := payload float_str hms x in
  tick float_str n t w k =
    ((rd ++ [Print (log_line float_str hms x);
             CoroutineCreated "my_queue" data;
             Sleep 300])%list, Ok tt)
  /\ is_HMS hms = true
  /\ flat_object data = Some [("time", hms); ("temperature", float_str x)]
  /\ (forall bus,
        open_sender bus (connection_str n) "my_queue" = Ok tt ->
        exists rest r,
          pushData_body n "my_queue" data bus
          = (SendMessages (connection_str n) "my_queue" data :: rest, r)).
Proof.
  intros Hrd Hvalid Hstr hms data.
  pose proof (strftime_HMS_shape _ Hvalid) as Hshape. fold hms in Hshape.
  split; [|split; [exact Hshape | split]].
  - unfold tick. rewrite (tick_with_read_ok (publish_stmt n) t w k rd x Hrd).
    rewrite publish_stmt_run. reflexivity.
  - subst data. unfold flat_object, payload. cbn [append String.length].
    exact (fields_two _ "time" hms "temperature" (float_str x)
             eq_refl (is_HMS_no_quote hms Hshape) eq_refl Hstr).
  - intros bus Hopen. unfold pushData_body. rewrite Hopen.
    destruct (send_messages bus (connection_str n) "my_queue" data) as [[]|E];
      do 2 eexists; reflexivity.
Qed.

End Properties.

(** ** Sample runs *)

(** A tick on the sample host whose publish statement runs the coroutine
    against a service that refuses the message: the refusal is printed
    and the tick ends with its sleep. *)
Lemma publish_failure_contained_witness :
  let w := sample_world (fun _ => "t=21437") in
  let x := PyFloat.div (PyFloat.of_Z 21437) (PyFloat.of_Z 1000) in
  let n := Notifier_init "S3CR3T" in
  let data := payload sample_float_str (strftime_HMS (now w 0)) x in
  tick_with sample_float_str (publish_awaited n bus_down) sample_thermometer w 0
  = ([ReadFile sample_path;
      Print (log_line sample_float_str (strftime_HMS (now w 0)) x);
      CoroutineCreated "my_queue" data;
      SendMessages "S3CR3T" "my_queue" data;
      Print (publish_error (OSError "connection refused"));
      Sleep 300], Ok tt).
Proof.
  exact (proj1 (publish_failure_contained sample_float_str
                  (publish_awaited (Notifier_init "S3CR3T") bus_down)
                  sample_thermometer (sample_world (fun _ => "t=21437")) 0
                  [ReadFile sample_path]
                  (PyFloat.div (PyFloat.of_Z 21437) (PyFloat.of_Z 1000))
                  eq_refl)).
Defined.

(** Two good reads, then a device file whose tenth token is cut short:
    the loop runs two ticks and stops at the third read. *)
Lemma loop_stops_only_on_sensor_failure_witness :
  let w := sample_world (fun k => if Nat.ltb k 3 then "t=21437" else "t=") in
  let publish := publish_stmt (Notifier_init "S3CR3T") in
  snd (loop_with sample_float_str publish sample_thermometer w 2 0) = Running
  /\ loop_with sample_float_str publish sample_thermometer w 3 0
     = ((fst (loop_with sample_float_str publish sample_thermometer w 2 0)
         ++ [ReadFile sample_path])%list,
        Uncaught (ValueError "could not convert string to float: ''")).
Proof.
  destruct (loop_stops_only_on_sensor_failure sample_float_str
              (publish_stmt (Notifier_init "S3CR3T")) sample_thermometer
              (sample_world (fun k => if Nat.ltb k 3 then "t=21437" else "t="))
              2 0 eq_refl) as (Hrun & _ & Hstop).
  split; [exact Hrun | exact (Hstop _ _ 0%nat eq_refl)].
Defined.

(** The tick of 09:05:00 on the sample host. *)
Lemma tick_payload_witness :
  let w := sample_world (fun _ => "t=21437") in
  let x := PyFloat.div (PyFloat.of_Z 21437) (PyFloat.of_Z 1000) in
  let data := payload sample_float_str "09:05:00" x in
  tick sample_float_str (Notifier_init "S3CR3T") sample_thermometer w 0
  = ([ReadFile sample_path;
      Print (log_line sample_float_str "09:05:00" x);
      CoroutineCreated "my_queue" data;
      Sleep 300], Ok tt)
  /\ flat_object data = Some [("time", "09:05:00"); ("temperature", "21.437")].
Proof.
  assert (Hvalid : valid_time {| hour := 9; minute := 5; second := 0 |})
    by (unfold valid_time; cbn; lia).
  destruct (tick_payload sample_float_str (Notifier_init "S3CR3T")
              sample_thermometer (sample_world (fun _ => "t=21437")) 0
              [ReadFile sample_path]
              (PyFloat.div (PyFloat.of_Z 21437) (PyFloat.of_Z 1000))
              eq_refl Hvalid eq_refl) as (Htick & _ & Hobj & _).
  split; [exact Htick | exact Hobj].
Defined.

(** ** Further properties of [Thermometer] *)

(** *** Lines and tokens *)

Lemma split_no_sep (sep : ascii) (a : string) :
  PyStr.mem sep a = false -> PyStr.split sep a = [a].
Proof.
  induction a as [|c a IH]; cbn [PyStr.mem PyStr.split]; intros H; [reflexivity|].
  apply orb_false_elim in H as [Hc Ha].
  rewrite Ascii.eqb_sym, Hc, (IH Ha). reflexivity.
Qed.

Lemma split_app_sep (sep : ascii) (a b : string) :
  PyStr.mem sep a = false ->
  PyStr.split sep (a ++ String sep b) = a :: PyStr.split sep b.
Proof.
  induction a as [|c a IH]; cbn [PyStr.mem PyStr.split append]; intros H.
  - rewrite Ascii.eqb_refl. reflexivity.
  - apply orb_false_elim in H as [Hc Ha].
    rewrite Ascii.eqb_sym, Hc, (IH Ha). reflexivity.
Qed.

(** Splitting undoes joining, empty fields included, as long as no field
    holds the separator. *)
Lemma split_join (sep : ascii) (l : list string) :
  l <> [] -> forallb (fun x => negb (PyStr.mem sep x)) l = true ->
  PyStr.split sep (join sep l) = l.
Proof.
  induction l as [|x t IH]; [congruence|]. intros _ H.
  cbn [forallb] in H. apply andb_prop in H as [Hx Ht].
  apply negb_true_iff in Hx.
  destruct t as [|y t].
  - apply split_no_sep. exact Hx.
  - change (join sep (x :: y :: t)) with (x ++ String sep (join sep (y :: t))).
    rewrite (split_app_sep sep x _ Hx). f_equal. apply IH; [discriminate | exact Ht].
Qed.

Lemma append_empty_r (a : string) : a ++ EmptyString = a.
Proof. induction a as [|c a IH]; cbn [append]; [reflexivity | rewrite IH; reflexivity]. Qed.

Lemma mem_app (c : ascii) (a b : string) :
  PyStr.mem c (a ++ b) = PyStr.mem c a || PyStr.mem c b.
Proof.
  induction a as [|d a IH]; cbn [PyStr.mem append]; [reflexivity|].
  rewrite IH, orb_assoc. reflexivity.
Qed.

Lemma join_tokens_one_line (tokens : list string) :
  forallb is_token tokens = true ->
  PyStr.mem PyStr.nl (join PyStr.sp tokens) = false.
Proof.
  induction tokens as [|x t IH]; [reflexivity|]. intros H.
  cbn [forallb] in H. apply andb_prop in H as [Hx Ht].
  unfold is_token in Hx. apply andb_prop in Hx as [_ Hnl].
  apply negb_true_iff in Hnl.
  destruct t as [|y t]; [exact Hnl|].
  change (join PyStr.sp (x :: y :: t))
    with (x ++ String PyStr.sp (join PyStr.sp (y :: t))).
  rewrite mem_app, Hnl. cbn [PyStr.mem orb].
  rewrite (IH Ht). reflexivity.
Qed.

Lemma tokens_no_space (tokens : list string) :
  forallb is_token tokens = true ->
  forallb (fun x => negb (PyStr.mem PyStr.sp x)) tokens = true.
Proof.
  induction tokens as [|x t IH]; [reflexivity|]. cbn [forallb]. intros H.
  apply andb_prop in H as [Hx Ht]. unfold is_token in Hx.
  apply andb_prop in Hx as [Hsp _]. rewrite Hsp, (IH Ht). reflexivity.
Qed.

(** The second line of a device text is the joined tokens, and its
    tokens are the given ones. *)
Lemma device_text_tokens (first : string) (tokens : list string)
  (more : option string) :
  PyStr.mem PyStr.nl first = false ->
  tokens <> [] -> forallb is_token tokens = true ->
  nth_error (PyStr.split PyStr.nl (device_text first tokens more)) 1
  = Some (join PyStr.sp tokens)
  /\ PyStr.split PyStr.sp (join PyStr.sp tokens) = tokens.
Proof.
  intros Hfirst Hne Htok. split.
  - unfold device_text. rewrite (split_app_sep _ first _ Hfirst).
    cbn [nth_error].
    pose proof (join_tokens_one_line tokens Htok) as Hline.
    destruct more as [m|].
    + rewrite (split_app_sep _ _ m Hline). reflexivity.
    + rewrite append_empty_r. rewrite (split_no_sep _ _ Hline). reflexivity.
  - apply split_join; [exact Hne | apply tokens_no_space; exact Htok].
Qed.

(** X1. Only the tenth token of the second line counts. Whatever the
    first line says (the CRC verdict of the sensor, YES or NO, is on it),
    whatever follows the second line, and whatever the other tokens are,
    the reading is the float of the tenth token without its first two
    characters, divided by 1000. *)
Theorem get_temperature_second_line_only (t : Thermometer) (fs : filesystem)
  (p : string) (rest : list string) (first : string) (tokens : list string)
  (more : option string) (c1 c2 : ascii) (s : string) (x : PyFloat.float) :
  ds18b20_roots t = p :: rest ->
  fs p = Ok (device_text first tokens more) ->
  PyStr.mem PyStr.nl first = false ->
  forallb is_token tokens = true ->
  nth_error tokens 9 = Some (String c1 (String c2 s)) ->
  PyFloat.parse s = Some x ->
  get_temperature t fs = ([ReadFile p], Ok (PyFloat.div x (PyFloat.of_Z 1000))).
Proof.
  intros Hroots Hfs Hfirst Htok H9 Hx.
  assert (Hne : tokens <> []) by (destruct tokens; [discriminate H9 | discriminate]).
  destruct (device_text_tokens first tokens more Hfirst Hne Htok) as [Hline Hsplit].
  rewrite (get_temperature_connected t fs p rest _ Hroots Hfs).
  rewrite Hline, Hsplit, H9. cbn [PyStr.slice_from]. rewrite Hx. reflexivity.
Qed.

Lemma get_temperature_second_line_only_witness :
  get_temperature sample_thermometer
    (sample_fs (device_text "5a 01 4b 46 7f ff 0c 10 a1 : crc=a1 NO"
                  ["5a"; "01"; "4b"; "46"; "7f"; "ff"; "0c"; "10"; "a1"; "t=21437"; "extra"]
                  (Some "a third line")))
  = ([ReadFile sample_path],
     Ok (PyFloat.div (PyFloat.of_Z 21437) (PyFloat.of_Z 1000))).
Proof.
  exact (get_temperature_second_line_only sample_thermometer _ sample_path []
           "5a 01 4b 46 7f ff 0c 10 a1 : crc=a1 NO"
           ["5a"; "01"; "4b"; "46"; "7f"; "ff"; "0c"; "10"; "a1"; "t=21437"; "extra"]
           (Some "a third line") "t" "=" "21437" (PyFloat.of_Z 21437)
           eq_refl eq_refl eq_refl eq_refl eq_refl eq_refl).
Defined.

(** *** Which inputs give a reading *)

(** X2. A reading comes from a parsed token and from nothing else: when
    [get_temperature] returns a float, the thermometer had a root, its
    first root was read (once, and no other file), the text had a second
    line with a tenth token, [float()] accepted that token without its
    first two characters, and the reading is that float divided by
    1000. *)
Theorem get_temperature_reading_inv (t : Thermometer) (fs : filesystem)
  (tr : trace) (x : PyFloat.float) :
  get_temperature t fs = (tr, Ok x) ->
  exists p rest content line token y,
    ds18b20_roots t = p :: rest /\ fs p = Ok content /\ tr = [ReadFile p]
    /\ nth_error (PyStr.split PyStr.nl content) 1 = Some line
    /\ nth_error (PyStr.split PyStr.sp line) 9 = Some token
    /\ PyFloat.parse (PyStr.slice_from 2 token) = Some y
    /\ x = PyFloat.div y (PyFloat.of_Z 1000).
Proof.
  intros H.
  destruct (ds18b20_roots t) as [|p rest] eqn:Hroots.
  - rewrite (get_temperature_disconnected t fs Hroots) in H. discriminate H.
  - destruct (fs p) as [content|E] eqn:Hfs.
    + rewrite (get_temperature_connected t fs p rest content Hroots Hfs) in H.
      destruct (nth_error (PyStr.split PyStr.nl content) 1) as [line|] eqn:Hline;
        [|discriminate H].
      destruct (nth_error (PyStr.split PyStr.sp line) 9) as [token|] eqn:Htok;
        [|discriminate H].
      destruct (PyFloat.parse (PyStr.slice_from 2 token)) as [y|] eqn:Hy;
        [|discriminate H].
      injection H as Htr Hx.
      subst tr x. exists p, rest, content, line, token, y. repeat split; assumption.
    + rewrite (get_temperature_unreadable t fs p rest E Hroots Hfs) in H.
      discriminate H.
Qed.

Lemma get_temperature_reading_inv_witness :
  exists p rest content line token y,
    ds18b20_roots sample_thermometer = p :: rest
    /\ sample_fs (sample_content "t=21437") p = Ok content
    /\ [ReadFile sample_path] = [ReadFile p]
    /\ nth_error (PyStr.split PyStr.nl content) 1 = Some line
    /\ nth_error (PyStr.split PyStr.sp line) 9 = Some token
    /\ PyFloat.parse (PyStr.slice_from 2 token) = Some y
    /\ PyFloat.div (PyFloat.of_Z 21437) (PyFloat.of_Z 1000)
       = PyFloat.div y (PyFloat.of_Z 1000).
Proof.
  exact (get_temperature_reading_inv sample_thermometer
           (sample_fs (sample_content "t=21437")) [ReadFile sample_path]
           (PyFloat.div (PyFloat.of_Z 21437) (PyFloat.of_Z 1000)) eq_refl).
Defined.

(** X3. Only the first match of the pattern is used. Two thermometers
    with the same first root, on file systems that agree on that root,
    behave alike, whatever the other roots and the other files are: no
    other sensor is read, and none is tried when the first one fails. *)
Theorem get_temperature_first_root_only (t t' : Thermometer)
  (fs fs' : filesystem) :
  hd_error (ds18b20_roots t) = hd_error (ds18b20_roots t') ->
  (forall p, hd_error (ds18b20_roots t) = Some p -> fs p = fs' p) ->
  get_temperature t fs = get_temperature t' fs'.
Proof.
  intros Hhd Hfs.
  destruct (ds18b20_roots t) as [|p rest] eqn:Hroots;
    destruct (ds18b20_roots t') as [|p' rest'] eqn:Hroots';
    cbn [hd_error] in Hhd; try discriminate Hhd.
  - rewrite (get_temperature_disconnected t fs Hroots).
    rewrite (get_temperature_disconnected t' fs' Hroots'). reflexivity.
  - injection Hhd as <-. specialize (Hfs p eq_refl).
    destruct (fs p) as [content|E] eqn:Hp.
    + rewrite (get_temperature_connected t fs p rest content Hroots Hp).
      rewrite (get_temperature_connected t' fs' p rest' content Hroots' (eq_sym Hfs)).
      reflexivity.
    + rewrite (get_temperature_unreadable t fs p rest E Hroots Hp).
      rewrite (get_temperature_unreadable t' fs' p rest' E Hroots' (eq_sym Hfs)).
      reflexivity.
Qed.

(** A first sensor whose file cannot be opened and a second one in good
    order: the call fails as if the second were not there. *)
Lemma get_temperature_first_root_only_witness :
  get_temperature
    {| ds18b20_roots := ["/sys/bus/w1/devices/28-a/w1_slave"; sample_path] |}
    (fun q => if String.eqb q sample_path then Ok (sample_content "t=21437")
              else Raised (OSError "[Errno 13] Permission denied"))
  = get_temperature
      {| ds18b20_roots := ["/sys/bus/w1/devices/28-a/w1_slave"] |}
      (fun _ => Raised (OSError "[Errno 13] Permission denied")).
Proof.
  apply get_temperature_first_root_only; [reflexivity|].
  intros p Hp. injection Hp as <-. reflexivity.
Defined.

Lemma slice_from_short (n : nat) (s : string) :
  (String.length s <= n)%nat -> PyStr.slice_from n s = EmptyString.
Proof.
  revert s. induction n as [|n IH]; intros [|c s] H; cbn in *;
    try reflexivity; try lia.
  apply IH. lia.
Qed.

(** X4. A tenth token of at most two characters leaves nothing after the
    slice: the slice itself never fails, and the call ends with the
    [ValueError] of [float('')]. *)
Theorem get_temperature_short_token (t : Thermometer) (fs : filesystem)
  (p : string) (rest : list string) (content line token : string) :
  ds18b20_roots t = p :: rest -> fs p = Ok content ->
  nth_error (PyStr.split PyStr.nl content) 1 = Some line ->
  nth_error (PyStr.split PyStr.sp line) 9 = Some token ->
  (String.length token <= 2)%nat ->
  get_temperature t fs =
  ([ReadFile p], Raised (ValueError "could not convert string to float: ''")).
Proof.
  intros Hroots Hfs Hline Htok Hlen.
  rewrite (get_temperature_connected t fs p rest content Hroots Hfs).
  rewrite Hline, Htok, (slice_from_short 2 token Hlen). reflexivity.
Qed.

Lemma get_temperature_short_token_witness :
  get_temperature sample_thermometer (sample_fs (sample_content "t="))
  = ([ReadFile sample_path],
     Raised (ValueError "could not convert string to float: ''")).
Proof.
  apply (get_temperature_short_token sample_thermometer _ sample_path []
           (sample_content "t=") "5a 01 4b 46 7f ff 0c 10 a1 t=" "t=");
    reflexivity.
Defined.

(** *** Readings below zero *)

Lemma number_digits (ds : string) :
  ds <> EmptyString -> all_digits ds = true ->
  PyFloat.number ds = Some (decimal_value ds, 0).
Proof.
  intros Hne Hd. unfold PyFloat.number, PyFloat.digits.
  rewrite (digits_acc_all_digits _ Hd). cbn [Z.mul Z.add Nat.add].
  destruct ds as [|c r]; [congruence|].
  cbn [String.length Nat.eqb Nat.add Z.of_nat Z.opp]. reflexivity.
Qed.

Lemma binary_round_aux_opp (s : bool) (m e : Z) (l : location) :
  SFopp (binary_round_aux PyFloat.prec PyFloat.emax s m e l)
  = binary_round_aux PyFloat.prec PyFloat.emax (negb s) m e l.
Proof.
  unfold binary_round_aux.
  destruct (shr_fexp PyFloat.prec PyFloat.emax m e l) as [mrs e'].
  destruct (shr_fexp PyFloat.prec PyFloat.emax
              (round_nearest_even (shr_m mrs) (loc_of_shr_record mrs)) e' loc_Exact)
    as [mrs' e''].
  destruct (shr_m mrs') as [|q|q]; try reflexivity.
  destruct (e'' <=? PyFloat.emax - PyFloat.prec); reflexivity.
Qed.

(** Dividing by the float 1000 commutes with the change of sign. *)
Lemma div_1000_opp (x : PyFloat.float) :
  PyFloat.div (SFopp x) (PyFloat.of_Z 1000)
  = SFopp (PyFloat.div x (PyFloat.of_Z 1000)).
Proof.
  change (PyFloat.of_Z 1000) with (S754_finite false 8796093022208000 (-43)).
  unfold PyFloat.div.
  destruct x as [s|s| |s m e]; cbn [SFopp SFdiv]; try reflexivity;
    try (destruct s; reflexivity).
  destruct (SFdiv_core_binary PyFloat.prec PyFloat.emax (Z.pos m) e
              8796093022208000 (-43)) as [[mz ez] lz].
  rewrite binary_round_aux_opp. destruct s; reflexivity.
Qed.

Lemma of_decimal_neg (m : Z) :
  0 <= m -> PyFloat.of_decimal true m 0 = SFopp (PyFloat.of_Z m).
Proof.
  intros Hm. destruct m as [|q|q]; [reflexivity | | lia].
  unfold PyFloat.of_decimal, PyFloat.of_Z, binary_normalize, binary_round.
  cbn [Z.leb Z.compare]. rewrite Z.pow_0_r, Z.mul_1_r. cbn [Z.to_pos].
  destruct (shl_align q 0 (fexp PyFloat.prec PyFloat.emax (Z.pos (digits2_pos q) + 0)))
    as [mz ez].
  rewrite binary_round_aux_opp. reflexivity.
Qed.

(** [float()] of a minus sign before digits is the opposite of the float
    of the digits. *)
Lemma parse_minus_digits (ds : string) :
  ds <> EmptyString -> all_digits ds = true ->
  PyFloat.parse (String "-" ds) = Some (SFopp (PyFloat.of_Z (decimal_value ds))).
Proof.
  intros Hne Hd. unfold PyFloat.parse.
  cbn [PyFloat.strip_underscores].
  change (Ascii.eqb "-" "_") with false. change (Ascii.eqb zero "_") with false.
  cbn [andb]. rewrite (strip_underscores_digits ds Hd "-"%char eq_refl).
  cbn [option_map PyFloat.lstrip].
  change (PyFloat.is_space "-") with false. cbv iota.
  cbn [PyFloat.rstrip]. rewrite (rstrip_digits ds Hd).
  destruct ds as [|c r]; [congruence|].
  cbn [PyFloat.sign]. rewrite (number_digits (String c r) Hne Hd).
  rewrite of_decimal_neg by (apply decimal_value_nonneg; exact Hd).
  reflexivity.
Qed.

(** X5. Temperatures below zero: a tenth token made of two characters, a
    minus sign and decimal digits gives the opposite of the reading that
    the digits alone give (t=-1250 reads as -1.25, and t=-0 as the
    negative zero). *)
Theorem get_temperature_negative (t : Thermometer) (fs : filesystem)
  (p : string) (rest : list string) (content line : string)
  (c1 c2 : ascii) (ds : string) :
  ds18b20_roots t = p :: rest -> fs p = Ok content ->
  nth_error (PyStr.split PyStr.nl content) 1 = Some line ->
  nth_error (PyStr.split PyStr.sp line) 9
  = Some (String c1 (String c2 (String "-" ds))) ->
  ds <> EmptyString -> all_digits ds = true ->
  get_temperature t fs =
  ([ReadFile p],
   Ok (SFopp (PyFloat.div (PyFloat.of_Z (decimal_value ds)) (PyFloat.of_Z 1000)))).
Proof.
  intros Hroots Hfs Hline Htok Hne Hds.
  rewrite (get_temperature_connected t fs p rest content Hroots Hfs).
  rewrite Hline, Htok. cbn [PyStr.slice_from].
  rewrite (parse_minus_digits ds Hne Hds), div_1000_opp. reflexivity.
Qed.

Lemma get_temperature_negative_witness :
  get_temperature sample_thermometer (sample_fs (sample_content "t=-1250"))
  = ([ReadFile sample_path],
     Ok (SFopp (PyFloat.div (PyFloat.of_Z 1250) (PyFloat.of_Z 1000))))
  /\ PyFloat.parse "-1.25"
     = Some (SFopp (PyFloat.div (PyFloat.of_Z 1250) (PyFloat.of_Z 1000))).
Proof.
  split; [|vm_compute; reflexivity].
  apply (get_temperature_negative sample_thermometer _ sample_path []
           (sample_content "t=-1250") "5a 01 4b 46 7f ff 0c 10 a1 t=-1250"
           "t" "=" "1250"); solve [reflexivity | discriminate].
Defined.

(** ** Further properties of the main block *)

(** The main block past the platform test, by the outcome of the
    diagnostic read. *)
Lemma program_gate_passed (float_str : PyFloat.float -> string)
  (w : world) (fuel : nat) :
  program float_str true w fuel =
  match get_temperature (startup_thermometer w) (file w 0) with
  | (rd, Ok x) =>
      ((fst motd ++ rd ++ [Print (float_str x)]
        ++ fst (loop float_str (Notifier_init "S3CR3T") (startup_thermometer w) w fuel 0))%list,
       snd (loop float_str (Notifier_init "S3CR3T") (startup_thermometer w) w fuel 0))
  | (rd, Raised E) =>
      ((fst motd ++ rd ++ [Print ("Error: " ++ exn_str E)%string])%list, Exit 1)
  end.
Proof.
  unfold program, startup_thermometer. cbn [negb].
  destruct (get_temperature _ (file w 0)) as [rd [x|E]]; [|reflexivity].
  destruct (loop float_str _ _ w fuel 0) as [tr st]. reflexivity.
Qed.

(** The loop never exits by itself: it is running, or an exception has
    left it. *)
Lemma loop_with_status (float_str : PyFloat.float -> string)
  (publish : string -> string -> M unit) (t : Thermometer) (w : world)
  (fuel k : nat) :
  snd (loop_with float_str publish t w fuel k) = Running
  \/ exists E, snd (loop_with float_str publish t w fuel k) = Uncaught E.
Proof.
  revert k. induction fuel as [|fuel IH]; intros k; [left; reflexivity|].
  cbn [loop_with].
  destruct (tick_with float_str publish t w k) as [tr [u|E]].
  - specialize (IH (S k)).
    destruct (loop_with float_str publish t w fuel (S k)) as [tr' st].
    exact IH.
  - right. exists E. reflexivity.
Qed.

(** An exception that leaves the loop is the exception of a sensor read,
    at the first tick whose read fails. *)
Lemma loop_with_uncaught_inv (float_str : PyFloat.float -> string)
  (publish : string -> string -> M unit) (t : Thermometer) (w : world)
  (fuel k : nat) (E : exn) :
  snd (loop_with float_str publish t w fuel k) = Uncaught E ->
  exists n, (n < fuel)%nat
    /\ forallb (read_ok t w) (seq k n) = true
    /\ snd (get_temperature t (file w (S (k + n)))) = Raised E.
Proof.
  revert k. induction fuel as [|fuel IH]; intros k H; [discriminate H|].
  destruct (get_temperature t (file w (S k))) as [rd [x|E0]] eqn:Hrd.
  - pose proof (tick_with_read_ok float_str publish t w k rd x Hrd) as Htick.
    rewrite (loop_with_step float_str publish t w fuel k _ Htick) in H.
    cbn [snd] in H. destruct (IH (S k) H) as (n & Hn & Hok & Hfail).
    exists (S n). split; [lia | split].
    + cbn [seq forallb]. unfold read_ok at 1. rewrite Hrd. cbn [snd]. exact Hok.
    + replace (k + S n)%nat with (S k + n)%nat by lia. exact Hfail.
  - cbn [loop_with] in H.
    rewrite (tick_with_read_raised float_str publish t w k rd E0 Hrd) in H.
    cbn [snd] in H. injection H as ->.
    exists 0%nat. split; [lia | split; [reflexivity|]].
    rewrite Nat.add_0_r, Hrd. reflexivity.
Qed.

(** X6. The process ends by itself with exit code 1 and with no other
    code, and only at start-up: when the platform test fails or when the
    diagnostic read raises, before any event of the loop. Once in the
    loop it never exits by itself. *)
Theorem program_exit_code (float_str : PyFloat.float -> string)
  (linux : bool) (w : world) (fuel : nat) (c : Z) :
  snd (program float_str linux w fuel) = Exit c ->
  c = 1
  /\ existsb is_loop_event (fst (program float_str linux w fuel)) = false
  /\ (linux = false \/ diagnostic_ok w = false).
Proof.
  destruct linux.
  - rewrite program_gate_passed. unfold diagnostic_ok.
    destruct (get_temperature_quiet (startup_thermometer w) (file w 0)) as [_ Hquiet].
    destruct (get_temperature (startup_thermometer w) (file w 0)) as [rd [x|E]];
      cbn [fst snd] in *.
    + intros H.
      destruct (loop_with_status float_str
                  (publish_stmt (Notifier_init "S3CR3T"))
                  (startup_thermometer w) w fuel 0) as [Hrun | [E HE]];
        unfold loop in H; rewrite H in *; discriminate.
    + intros H. injection H as <-.
      split; [reflexivity | split; [|right; reflexivity]].
      rewrite !existsb_app, Hquiet. reflexivity.
  - cbn. intros H. injection H as <-. auto.
Qed.

Lemma program_exit_code_witness :
  snd (program sample_float_str true (sample_world (fun _ => "t=")) 5) = Exit 1
  /\ existsb is_loop_event
       (fst (program sample_float_str true (sample_world (fun _ => "t=")) 5)) = false
  /\ diagnostic_ok (sample_world (fun _ => "t=")) = false.
Proof.
  destruct (program_exit_code sample_float_str true
              (sample_world (fun _ => "t=")) 5 1 eq_refl) as (_ & Hquiet & _).
  split; [reflexivity | split; [exact Hquiet | reflexivity]].
Defined.

(** X7. An exception that ends the process from inside the loop is that
    of a sensor read: the platform test and the diagnostic read had
    passed, the reads of the ticks before had succeeded, and nothing the
    publish statement does can end the loop. *)
Theorem program_uncaught_inv (float_str : PyFloat.float -> string)
  (linux : bool) (w : world) (fuel : nat) (E : exn) :
  snd (program float_str linux w fuel) = Uncaught E ->
  linux = true /\ diagnostic_ok w = true
  /\ exists n, (n < fuel)%nat
       /\ forallb (read_ok (startup_thermometer w) w) (seq 0 n) = true
       /\ snd (get_temperature (startup_thermometer w) (file w (S n))) = Raised E.
Proof.
  destruct linux; [|discriminate].
  rewrite program_gate_passed. unfold diagnostic_ok.
  destruct (get_temperature (startup_thermometer w) (file w 0)) as [rd [x|E0]];
    cbn [snd]; [|discriminate].
  intros H. split; [reflexivity | split; [reflexivity|]].
  exact (loop_with_uncaught_inv float_str _ _ w fuel 0 E H).
Qed.

Lemma program_uncaught_inv_witness :
  exists n, (n < 4)%nat
    /\ forallb (read_ok (startup_thermometer
                           (sample_world (fun k => if Nat.ltb k 3 then "t=21437" else "t=")))
                  (sample_world (fun k => if Nat.ltb k 3 then "t=21437" else "t=")))
         (seq 0 n) = true
    /\ snd (get_temperature
              (startup_thermometer
                 (sample_world (fun k => if Nat.ltb k 3 then "t=21437" else "t=")))
              (file (sample_world (fun k => if Nat.ltb k 3 then "t=21437" else "t="))
                 (S n)))
       = Raised (ValueError "could not convert string to float: ''").
Proof.
  exact (proj2 (proj2 (program_uncaught_inv sample_float_str true
           (sample_world (fun k => if Nat.ltb k 3 then "t=21437" else "t=")) 4
           (ValueError "could not convert string to float: ''") eq_refl))).
Defined.

(** *** What a run reads, publishes and sleeps *)

Lemma get_temperature_reads_first_root (t : Thermometer) (fs : filesystem) :
  reads_first_root (ds18b20_roots t) (fst (get_temperature t fs)) = true.
Proof.
  rewrite (get_temperature_trace t fs).
  destruct (ds18b20_roots t) as [|p rest]; [reflexivity|].
  cbn. rewrite String.eqb_refl. reflexivity.
Qed.

Lemma reads_first_root_app (roots : list string) (a b : trace) :
  reads_first_root roots (a ++ b)%list
  = reads_first_root roots a && reads_first_root roots b.
Proof. unfold reads_first_root. apply forallb_app. Qed.

Lemma tick_reads_first_root (float_str : PyFloat.float -> string)
  (n : Notifier) (t : Thermometer) (w : world) (k : nat) :
  reads_first_root (ds18b20_roots t) (fst (tick float_str n t w k)) = true.
Proof.
  pose proof (get_temperature_reads_first_root t (file w (S k))) as Hrd.
  unfold tick.
  destruct (get_temperature t (file w (S k))) as [rd [x|E]] eqn:Hget;
    cbn [fst] in Hrd.
  - rewrite (tick_with_read_ok float_str (publish_stmt n) t w k rd x Hget).
    rewrite publish_stmt_run. cbn [fst snd].
    rewrite reads_first_root_app, Hrd. reflexivity.
  - rewrite (tick_with_read_raised float_str (publish_stmt n) t w k rd E Hget).
    exact Hrd.
Qed.

Lemma loop_reads_first_root (float_str : PyFloat.float -> string)
  (n : Notifier) (t : Thermometer) (w : world) (fuel k : nat) :
  reads_first_root (ds18b20_roots t) (fst (loop float_str n t w fuel k)) = true.
Proof.
  revert k. induction fuel as [|fuel IH]; intros k; [reflexivity|].
  pose proof (tick_reads_first_root float_str n t w k) as Htick.
  specialize (IH (S k)). unfold loop, tick in *. cbn [loop_with].
  destruct (tick_with float_str (publish_stmt n) t w k) as [tr [u|E]];
    cbn [fst] in Htick.
  - destruct (loop_with float_str (publish_stmt n) t w fuel (S k)) as [tr' st].
    cbn [fst] in *. rewrite reads_first_root_app, Htick, IH. reflexivity.
  - exact Htick.
Qed.

(** X8. The device pattern is resolved once, when the thermometer is
    built: every file read of a run, the diagnostic one and that of each
    tick, is a read of the first match found at start-up; with no match
    at start-up no file is ever read. *)
Theorem program_reads_first_root (float_str : PyFloat.float -> string)
  (linux : bool) (w : world) (fuel : nat) :
  reads_first_root (glob w "/sys/bus/w1/devices/28*/w1_slave")
    (fst (program float_str linux w fuel)) = true.
Proof.
  destruct linux; [|reflexivity].
  rewrite program_gate_passed.
  pose proof (get_temperature_reads_first_root (startup_thermometer w) (file w 0)) as Hrd.
  pose proof (loop_reads_first_root float_str (Notifier_init "S3CR3T")
                (startup_thermometer w) w fuel 0) as Hloop.
  change (ds18b20_roots (startup_thermometer w))
    with (glob w "/sys/bus/w1/devices/28*/w1_slave") in *.
  destruct (get_temperature (startup_thermometer w) (file w 0)) as [rd [x|E]];
    cbn [fst snd] in *;
    rewrite !reads_first_root_app, Hrd, ?Hloop; reflexivity.
Qed.

Lemma count_app (f : event -> bool) (a b : trace) :
  count f (a ++ b)%list = (count f a + count f b)%nat.
Proof. unfold count. rewrite filter_app, length_app. reflexivity. Qed.

Lemma slept_app (a b : trace) : slept (a ++ b)%list = slept a + slept b.
Proof.
  induction a as [|e a IH]; [reflexivity|].
  destruct e; cbn [slept app]; rewrite IH; ring.
Qed.

(** A read that returns a temperature has read one file. *)
Lemma get_temperature_ok_one_read (t : Thermometer) (fs : filesystem)
  (rd : trace) (x : PyFloat.float) :
  get_temperature t fs = (rd, Ok x) ->
  count is_read rd = 1%nat /\ count is_coroutine rd = 0%nat /\ slept rd = 0.
Proof.
  intros H. pose proof (get_temperature_trace t fs) as Htr.
  rewrite H in Htr. cbn [fst] in Htr.
  destruct (ds18b20_roots t) as [|p rest] eqn:Hroots.
  - rewrite (get_temperature_disconnected t fs Hroots) in H. discriminate H.
  - subst rd. repeat split.
Qed.

Lemma loop_counts (float_str : PyFloat.float -> string)
  (n : Notifier) (t : Thermometer) (w : world) (fuel k : nat) :
  forallb (read_ok t w) (seq k fuel) = true ->
  snd (loop float_str n t w fuel k) = Running
  /\ count is_read (fst (loop float_str n t w fuel k)) = fuel
  /\ count is_coroutine (fst (loop float_str n t w fuel k)) = fuel
  /\ slept (fst (loop float_str n t w fuel k)) = 300 * Z.of_nat fuel.
Proof.
  revert k. induction fuel as [|fuel IH]; intros k Hok.
  - repeat split.
  - cbn [seq forallb] in Hok. apply andb_prop in Hok as [Hk Hrest].
    unfold read_ok in Hk.
    destruct (get_temperature t (file w (S k))) as [rd [x|E]] eqn:Hrd;
      cbn [snd] in Hk; [|discriminate Hk].
    destruct (get_temperature_ok_one_read _ _ _ _ Hrd) as (Hr & Hc & Hs).
    pose proof (tick_with_read_ok float_str (publish_stmt n) t w k rd x Hrd) as Htick.
    rewrite publish_stmt_run in Htick. cbn [fst snd] in Htick.
    destruct (IH (S k) Hrest) as (Hrun & Hreads & Hcos & Hslept).
    unfold loop in *.
    rewrite (loop_with_step float_str (publish_stmt n) t w fuel k _ Htick).
    cbn [fst snd].
    rewrite !count_app, !slept_app, Hr, Hc, Hs, Hreads, Hcos, Hslept.
    repeat split; try assumption; try reflexivity.
    cbn [slept app]. lia.
Qed.

(** X9. A run past the platform test whose sensor reads all succeed,
    observed for [fuel] ticks, is still running and has read the device
    file once per tick and once at start-up, made one publish call per
    tick, and slept the three seconds of the message of the day and five
    minutes per tick. *)
Theorem program_run_counts (float_str : PyFloat.float -> string)
  (w : world) (fuel : nat) :
  diagnostic_ok w = true ->
  forallb (read_ok (startup_thermometer w) w) (seq 0 fuel) = true ->
  snd (program float_str true w fuel) = Running
  /\ count is_read (fst (program float_str true w fuel)) = S fuel
  /\ count is_coroutine (fst (program float_str true w fuel)) = fuel
  /\ slept (fst (program float_str true w fuel)) = 3 + 300 * Z.of_nat fuel.
Proof.
  intros Hdiag Hok. rewrite program_gate_passed. unfold diagnostic_ok in Hdiag.
  destruct (get_temperature (startup_thermometer w) (file w 0)) as [rd [x|E]] eqn:Hrd;
    cbn [snd] in Hdiag; [|discriminate Hdiag].
  destruct (get_temperature_ok_one_read _ _ _ _ Hrd) as (Hr & Hc & Hs).
  destruct (loop_counts float_str (Notifier_init "S3CR3T")
              (startup_thermometer w) w fuel 0 Hok)
    as (Hrun & Hreads & Hcos & Hslept).
  cbn [fst snd].
  rewrite !count_app, !slept_app, Hr, Hc, Hs, Hreads, Hcos, Hslept.
  repeat split; try assumption; try reflexivity.
Qed.

Lemma program_run_counts_witness :
  let w := sample_world (fun _ => "t=21437") in
  snd (program sample_float_str true w 3) = Running
  /\ count is_read (fst (program sample_float_str true w 3)) = 4%nat
  /\ count is_coroutine (fst (program sample_float_str true w 3)) = 3%nat
  /\ slept (fst (program sample_float_str true w 3)) = 903.
Proof.
  exact (program_run_counts sample_float_str
           (sample_world (fun _ => "t=21437")) 3 eq_refl eq_refl).
Defined.

(** *** Which exceptions a read can raise *)

(** X10. The exceptions of [get_temperature] are these and no others:
    the [Exception] of the [else] branch when the pattern had no match
    (no file read); otherwise, after the read of the first root, the
    exception of that read itself, or one of the three deviations of the
    text from the wire format with its built-in exception. *)
Theorem get_temperature_error_inv (t : Thermometer) (fs : filesystem)
  (tr : trace) (E : exn) :
  get_temperature t fs = (tr, Raised E) ->
  (ds18b20_roots t = [] /\ tr = []
   /\ E = Exception
        "unable to get temperature. Please check device connection, or configured ds18b20_roots!")
  \/ exists p rest,
       ds18b20_roots t = p :: rest /\ tr = [ReadFile p]
       /\ (fs p = Raised E \/ exists content, fs p = Ok content /\ malformed content E).
Proof.
  intros H.
  destruct (ds18b20_roots t) as [|p rest] eqn:Hroots.
  - rewrite (get_temperature_disconnected t fs Hroots) in H.
    injection H as <- <-. left. auto.
  - right. exists p, rest.
    destruct (fs p) as [content|E0] eqn:Hfs.
    + rewrite (get_temperature_connected t fs p rest content Hroots Hfs) in H.
      pose proof (f_equal fst H) as Htr. apply (f_equal snd) in H.
      cbn [fst snd] in Htr, H. subst tr.
      split; [reflexivity | split; [reflexivity|]].
      right. exists content. split; [reflexivity|].
      destruct (nth_error (PyStr.split PyStr.nl content) 1) as [line|] eqn:Hline.
      * destruct (nth_error (PyStr.split PyStr.sp line) 9) as [token|] eqn:Htok.
        -- destruct (PyFloat.parse (PyStr.slice_from 2 token)) as [y|] eqn:Hy;
             [discriminate H|].
           injection H as <-. exact (bad_suffix content line token Hline Htok Hy).
        -- injection H as <-. apply (few_tokens content line Hline).
           apply nth_error_None in Htok. lia.
      * injection H as <-. apply no_second_line.
        apply nth_error_None in Hline. lia.
    + rewrite (get_temperature_unreadable t fs p rest E0 Hroots Hfs) in H.
      injection H as <- <-. auto.
Qed.

(** A device text of one line: the read of the file is in the trace, and
    the exception is the one of the missing second line. *)
Lemma get_temperature_error_inv_witness :
  exists p rest,
    ds18b20_roots sample_thermometer = p :: rest
    /\ [ReadFile sample_path] = [ReadFile p]
    /\ (sample_fs "no second line" p = Raised (IndexError "list index out of range")
        \/ exists content,
             sample_fs "no second line" p = Ok content
             /\ malformed content (IndexError "list index out of range")).
Proof.
  destruct (get_temperature_error_inv sample_thermometer (sample_fs "no second line")
              [ReadFile sample_path] (IndexError "list index out of range") eq_refl)
    as [(Hnone & _) | Hsome]; [discriminate Hnone | exact Hsome].
Defined.

(** ** The start-up of the real entry point *)

(** C7. The claim fails on [main], by the defect of the platform test:
    on every host, with or without a sensor, the process reads no file
    at all, so the diagnostic read is never performed; what it prints is
    the platform error, never the error of a sensor read, and it exits
    with code 1 before the message of the day. *)
Theorem main_skips_diagnostic_read (float_str : PyFloat.float -> string)
  (w : world) (fuel : nat) :
  count is_read (fst (main float_str w fuel)) = 0%nat
  /\ printed
       "Error: unable to get temperature. Please check device connection, or configured ds18b20_roots!"
       (fst (main float_str w fuel)) = false
  /\ printed "Error: this scrip cannot be runned on a non linux host"
       (fst (main float_str w fuel)) = true
  /\ fst (main float_str w fuel)
     = [Print "Error: this scrip cannot be runned on a non linux host"]
  /\ snd (main float_str w fuel) = Exit 1.
Proof.
  unfold main.
  assert (Hgate : is_linux_os = false) by reflexivity.
  rewrite Hgate. unfold program. cbn [negb fst snd].
  repeat split.
Qed.

(** The same host past the gate: with no match of the pattern the
    start-up block prints the error of the diagnostic read, which [main]
    never does. *)
Example startup_without_sensor :
  let w := {| host_platform := "linux"; glob := fun _ => [];
              file := fun _ _ => Raised (OSError "[Errno 2] No such file or directory");
              now := fun _ => {| hour := 9; minute := 5; second := 0 |} |} in
  printed
    "Error: unable to get temperature. Please check device connection, or configured ds18b20_roots!"
    (fst (program sample_float_str true w 3)) = true
  /\ snd (program sample_float_str true w 3) = Exit 1
  /\ printed
       "Error: unable to get temperature. Please check device connection, or configured ds18b20_roots!"
       (fst (main sample_float_str w 3)) = false.
Proof. repeat split. Qed.
